(** * Contract Management SDK (Python): the request pipeline, verified

    A shallow embedding of [docs/sdk/python/contract_sdk/client.py]:
    the class [ContractManagementClient], its request pipeline
    [_make_request], the error translation [_handle_error], the token
    refresh [_refresh_access_token], and the wrapper methods built on them.

    Python objects are explicit values ([pyval]); the client object is a
    record threaded through every call; exceptions are outcomes that keep
    the state reached when they were raised; the network is a function of
    the history of calls handed to [session.request]. *)

From Stdlib Require Import String Ascii List ZArith Bool Lia DecimalString.
Import ListNotations.
Local Open Scope string_scope.
Local Open Scope Z_scope.
Set Warnings "-register-all".


(** ** Python values *)

Module Py.

(** The values the SDK moves around: what [json.loads] produces and what
    [json.dumps] accepts.  Numbers are the integers; [dict] keeps insertion
    order and has string keys. *)
Inductive pyval : Type :=
| PNone
| PBool (b : bool)
| PInt (z : Z)
| PStr (s : string)
| PList (l : list pyval)
| PDict (d : list (string * pyval)).

(** [bool(v)]: the test behind [if v:]. *)
Definition truthy (v : pyval) : bool :=
  match v with
  | PNone => false
  | PBool b => b
  | PInt z => negb (z =? 0)
  | PStr s => negb (s =? "")%string
  | PList l => match l with [] => false | _ => true end
  | PDict d => match d with [] => false | _ => true end
  end.

(** [v is not None] *)
Definition is_not_None (v : pyval) : bool :=
  match v with PNone => false | _ => true end.

(** [d.get(k)] on the entries of a dict. *)
Fixpoint dict_get {V : Type} (k : string) (d : list (string * V)) : option V :=
  match d with
  | [] => None
  | (k', v) :: d' => if (k =? k')%string then Some v else dict_get k d'
  end.

(** [d[k] = v]: overwrite in place, or append a new entry. *)
Fixpoint dict_set {V : Type} (k : string) (v : V) (d : list (string * V))
  : list (string * V) :=
  match d with
  | [] => [(k, v)]
  | (k', v') :: d' =>
      if (k =? k')%string then (k, v) :: d' else (k', v') :: dict_set k v d'
  end.

(** [d.get(k, default)] *)
Definition dict_get_default {V : Type} (k : string) (default : V)
  (d : list (string * V)) : V :=
  match dict_get k d with Some v => v | None => default end.

(** Characters by code. *)
Definition chr (n : nat) : ascii := ascii_of_nat n.
Definition dquote : ascii := chr 34.
Definition squote : ascii := chr 39.
Definition backslash : ascii := chr 92.

Definition str1 (c : ascii) : string := String c EmptyString.

Definition hex_digit (n : nat) : ascii :=
  if Nat.ltb n 10 then chr (48 + n) else chr (87 + n).

Definition hex2 (n : nat) : string :=
  String (hex_digit (Nat.div n 16)) (str1 (hex_digit (Nat.modulo n 16))).

(** [str(z)] for an int. *)
Definition str_of_Z (z : Z) : string := NilZero.string_of_int (Z.to_int z).

Fixpoint mem_char (c : ascii) (s : string) : bool :=
  match s with
  | EmptyString => false
  | String c' s' => Ascii.eqb c c' || mem_char c s'
  end.

Fixpoint join (sep : string) (l : list string) : string :=
  match l with
  | [] => ""
  | [x] => x
  | x :: l' => x ++ sep ++ join sep l'
  end.

(** [repr(s)] for a str of ASCII characters: single quotes unless the text
    has a single quote and no double quote. *)
Definition repr_char (q c : ascii) : string :=
  let n := nat_of_ascii c in
  if Ascii.eqb c q || Ascii.eqb c backslash then String backslash (str1 c)
  else if Nat.eqb n 10 then String backslash "n"
  else if Nat.eqb n 13 then String backslash "r"
  else if Nat.eqb n 9 then String backslash "t"
  else if Nat.ltb n 32 || Nat.eqb n 127 then String backslash ("x" ++ hex2 n)
  else str1 c.

Fixpoint concat_map_char (f : ascii -> string) (s : string) : string :=
  match s with
  | EmptyString => ""
  | String c s' => f c ++ concat_map_char f s'
  end.

Definition repr_str (s : string) : string :=
  let q := if mem_char squote s && negb (mem_char dquote s)
           then dquote else squote in
  String q (concat_map_char (repr_char q) s ++ str1 q).

(** [repr(v)] *)
Fixpoint py_repr (v : pyval) : string :=
  match v with
  | PNone => "None"
  | PBool true => "True"
  | PBool false => "False"
  | PInt z => str_of_Z z
  | PStr s => repr_str s
  | PList l => "[" ++ join ", " (map py_repr l) ++ "]"
  | PDict d =>
      "{" ++ join ", "
               (map (fun kv => repr_str (fst kv) ++ ": " ++ py_repr (snd kv)) d)
          ++ "}"
  end.

(** [str(v)], the conversion an f-string applies: a str is itself, every
    other value prints as its repr. *)
Definition py_str (v : pyval) : string :=
  match v with
  | PStr s => s
  | _ => py_repr v
  end.

(** [json.dumps] with its defaults ([ensure_ascii], separators [", "] and
    [": "]). *)
Definition json_char (c : ascii) : string :=
  let n := nat_of_ascii c in
  if Ascii.eqb c dquote || Ascii.eqb c backslash then String backslash (str1 c)
  else if Nat.eqb n 10 then String backslash "n"
  else if Nat.eqb n 13 then String backslash "r"
  else if Nat.eqb n 9 then String backslash "t"
  else if Nat.eqb n 8 then String backslash "b"
  else if Nat.eqb n 12 then String backslash "f"
  else if Nat.ltb n 32 || Nat.leb 127 n then String backslash ("u00" ++ hex2 n)
  else str1 c.

Definition json_string (s : string) : string :=
  String dquote (concat_map_char json_char s ++ str1 dquote).

Fixpoint json_dumps (v : pyval) : string :=
  match v with
  | PNone => "null"
  | PBool true => "true"
  | PBool false => "false"
  | PInt z => str_of_Z z
  | PStr s => json_string s
  | PList l => "[" ++ join ", " (map json_dumps l) ++ "]"
  | PDict d =>
      "{" ++ join ", "
               (map (fun kv => json_string (fst kv) ++ ": " ++ json_dumps (snd kv)) d)
          ++ "}"
  end.

(** One member of the text of a JSON object. *)
Definition json_member (kv : string * pyval) : string :=
  json_string (fst kv) ++ ": " ++ json_dumps (snd kv).

(** [s.rstrip('/')] *)
Fixpoint rstrip_slash (s : string) : string :=
  match s with
  | EmptyString => EmptyString
  | String c s' =>
      match rstrip_slash s' with
      | EmptyString => if Ascii.eqb c "/" then EmptyString else str1 c
      | t => String c t
      end
  end.

(** [os.path.basename(p)] on POSIX: what follows the last slash. *)
Fixpoint basename_from (acc : string) (s : string) : string :=
  match s with
  | EmptyString => acc
  | String c s' =>
      if Ascii.eqb c "/" then basename_from s' s' else basename_from acc s'
  end.

Definition basename (p : string) : string := basename_from p p.

End Py.
Export Py.


(** ** The [requests] library, as far as the client uses it *)

Module Requests.

(** [response.json()] either decodes the body or raises a decoding error
    carrying a message. *)
Inductive JsonResult : Type :=
| JsonValue (v : pyval)
| JsonDecodeError (msg : string).

(** A [requests.Response]: the attributes the client reads.  [text] is the
    body; [json] is what [response.json()] makes of it. *)
Record Response : Type := mkResponse {
  status_code : Z;
  text : string;
  json : JsonResult;
  resp_headers : list (string * string)
}.

(** [response.content] used as a condition: the body is not empty. *)
Definition has_content (r : Response) : bool := negb (text r =? "")%string.

(** [response.raise_for_status()] raises [HTTPError] for a client error
    (400 to 499) or a server error (500 to 599), and for nothing else. *)
Definition is_http_error (r : Response) : bool :=
  (400 <=? status_code r) && (status_code r <? 600).

(** What [session.request] can raise: [ConnectionError] (which the handler
    of [_make_request] tests first), [Timeout], or any other
    [RequestException]. *)
Inductive TransportFailure : Type :=
| ConnectionError (msg : string)
| Timeout (msg : string)
| OtherRequestException (msg : string).

Inductive TransportResult : Type :=
| Responded (r : Response)
| Failed (f : TransportFailure).

(** [urllib.parse.urljoin(base, endpoint)], kept as the pair it resolves. *)
Inductive Url : Type := urljoin (base endpoint : string).

(** [urllib3.util.retry.Retry(total, backoff_factor, status_forcelist)] *)
Record Retry : Type := mkRetry {
  total : Z;
  backoff_factor : Z;
  status_forcelist : list Z
}.

(** A [requests.Session]: default headers and the adapters mounted on it. *)
Record Session : Type := mkSession {
  headers : list (string * string);
  adapters : list (string * Retry)
}.

(** One part of a multipart upload, [(filename, f)], as a call finds it:
    [f] is an open file object, and [part_content] is what it still has to
    give from its current position.  [requests] reads [f] to its end when it
    prepares the body, so the content belongs to one call only: see
    [read_to_end] for what the same object gives a later call. *)
Record FilePart : Type := mkFilePart {
  part_filename : string;
  part_content : string
}.

(** The part [(filename, f)] once a call has sent it: the name is the same
    and [f] is at its end, so [f.read()] gives nothing more. *)
Definition read_to_end (p : FilePart) : FilePart :=
  mkFilePart (part_filename p) "".

(** The keyword arguments of [session.request(method, url, **kwargs)]; the
    keys ['files'] and ['data'] exist only when set. *)
Record Kwargs : Type := mkKwargs {
  kw_timeout : Z;
  kw_verify : bool;
  kw_headers : list (string * string);
  kw_params : option (list (string * pyval));
  kw_stream : bool;
  kw_files : option (list (string * FilePart));
  kw_data : option string
}.

Definition with_headers (h : list (string * string)) (k : Kwargs) : Kwargs :=
  mkKwargs (kw_timeout k) (kw_verify k) h (kw_params k) (kw_stream k)
           (kw_files k) (kw_data k).

(** The keyword arguments of a call as a later call finds them when it is
    given the same dict: every value is the same object, and the file
    objects have been read. *)
Definition after_send (k : Kwargs) : Kwargs :=
  mkKwargs (kw_timeout k) (kw_verify k) (kw_headers k) (kw_params k)
           (kw_stream k)
           (option_map (map (fun kp => (fst kp, read_to_end (snd kp))))
                       (kw_files k))
           (kw_data k).

(** Header names compare without case ([CaseInsensitiveDict]). *)
Definition lower_char (c : ascii) : ascii :=
  let n := nat_of_ascii c in
  if Nat.leb 65 n && Nat.leb n 90 then chr (n + 32) else c.

Fixpoint lower (s : string) : string :=
  match s with
  | EmptyString => EmptyString
  | String c s' => String (lower_char c) (lower s')
  end.

Fixpoint hdr_get (k : string) (h : list (string * string)) : option string :=
  match h with
  | [] => None
  | (k', v) :: h' =>
      if (lower k =? lower k')%string then Some v else hdr_get k h'
  end.

Fixpoint hdr_set (k v : string) (h : list (string * string))
  : list (string * string) :=
  match h with
  | [] => [(k, v)]
  | (k', v') :: h' =>
      if (lower k =? lower k')%string then (k, v) :: h'
      else (k', v') :: hdr_set k v h'
  end.

(** [h.update(new)] *)
Definition hdr_update (h new : list (string * string))
  : list (string * string) :=
  fold_left (fun acc kv => hdr_set (fst kv) (snd kv) acc) new h.

End Requests.
Export Requests.

(** ** Exceptions *)

(** The SDK's exception classes: [APIError] and its three subclasses. *)
Inductive ErrorClass : Type :=
| APIError
| AuthenticationError
| ValidationError
| NetworkError.

(** Everything a method of the client can raise.  [SDKError cls message
    code status_code details] is [cls(message, code, status_code, details)];
    [RequestsHTTPError] and [RequestsFailure] are the [requests] exceptions,
    which only live inside [_make_request]. *)
Inductive exn : Type :=
| SDKError (cls : ErrorClass) (message code status_code details : pyval)
| RequestsHTTPError (response : Response)
| RequestsFailure (f : TransportFailure)
| KeyError (key : string)
| TypeError
| ValueError (msg : string)
| RecursionError.

(** ** The client object and the world it runs in *)

Definition __version__ : string := "1.0.0".

Record Client : Type := mkClient {
  base_url : string;
  api_key : option string;
  access_token : pyval;
  refresh_token : pyval;
  timeout : Z;
  verify_ssl : bool;
  session : Session
}.

Definition set_access_token (v : pyval) (c : Client) : Client :=
  mkClient (base_url c) (api_key c) v (refresh_token c) (timeout c)
           (verify_ssl c) (session c).

Definition set_refresh_token (v : pyval) (c : Client) : Client :=
  mkClient (base_url c) (api_key c) (access_token c) v (timeout c)
           (verify_ssl c) (session c).

(** An [Optional[str]] argument as a Python value. *)
Definition of_optional (o : option string) : pyval :=
  match o with Some s => PStr s | None => PNone end.

(** [ContractManagementClient.__init__]; [default_headers] is what a fresh
    [requests.Session()] starts with. *)
Definition __init__ (default_headers : list (string * string))
  (base_url : string) (api_key access_token : option string)
  (timeout max_retries : Z) (verify_ssl : bool) : Client :=
  let retry_strategy := mkRetry max_retries 1 [429; 500; 502; 503; 504] in
  let adapter := retry_strategy in
  let mounted := dict_set "https://" adapter (dict_set "http://" adapter []) in
  let hs := hdr_update default_headers
              [("Content-Type", "application/json");
               ("User-Agent", "ContractManagementSDK-Python/" ++ __version__)] in
  let hs := match api_key with
            | Some k => if truthy (PStr k) then hdr_set "X-API-Key" k hs else hs
            | None => hs
            end in
  mkClient (rstrip_slash base_url) api_key (of_optional access_token) PNone
           timeout verify_ssl (mkSession hs mounted).

(** One call of [self.session.request(method, url, **kwargs)], with the
    client object as it stands when the call is made. *)
Record Sent : Type := mkSent {
  sent_self : Client;
  sent_method : string;
  sent_url : Url;
  sent_kwargs : Kwargs
}.

(** The headers that go on the wire: the session's, updated with the
    request's own. *)
Definition effective_headers (s : Sent) : list (string * string) :=
  hdr_update (headers (session (sent_self s))) (kw_headers (sent_kwargs s)).

(** The network: what [session.request] does with a call, given the calls
    made before it. *)
Definition Transport : Type := list Sent -> Sent -> TransportResult.

(** The local file system: the content of a path, when the path exists. *)
Definition FileSystem : Type := string -> option string.

Record World : Type := mkWorld {
  self : Client;
  log : list Sent
}.

(** ** Computations: state kept across exceptions *)

Inductive Outcome (A : Type) : Type :=
| Return (a : A)
| Raise (e : exn).
Arguments Return {A} a.
Arguments Raise {A} e.

Definition M (A : Type) : Type := World -> Outcome A * World.

Definition ret {A} (a : A) : M A := fun w => (Return a, w).

Definition raise {A} (e : exn) : M A := fun w => (Raise e, w).

Definition bind {A B} (m : M A) (k : A -> M B) : M B :=
  fun w =>
    match m w with
    | (Return a, w') => k a w'
    | (Raise e, w') => (Raise e, w')
    end.

(** [try: m  except: h] *)
Definition try_except {A} (m : M A) (h : exn -> M A) : M A :=
  fun w =>
    match m w with
    | (Return a, w') => (Return a, w')
    | (Raise e, w') => h e w'
    end.

(** [try: m  finally: f] *)
Definition try_finally {A} (m : M A) (f : M unit) : M A :=
  fun w =>
    match m w with
    | (r, w') =>
        match f w' with
        | (Return _, w'') => (r, w'')
        | (Raise e, w'') => (Raise e, w'')
        end
    end.

Definition get_self : M Client := fun w => (Return (self w), w).

Definition modify_self (f : Client -> Client) : M unit :=
  fun w => (Return tt, mkWorld (f (self w)) (log w)).

Declare Scope py_scope.
Delimit Scope py_scope with py.
Notation "x <- m ;; k" := (bind m (fun x => k))
  (at level 61, m at next level, right associativity) : py_scope.
Notation "m ;;; k" := (bind m (fun _ => k))
  (at level 61, right associativity) : py_scope.
Local Open Scope py_scope.

(** ** The request pipeline *)

(** What [_make_request] returns: the decoded body ([None] for an empty
    one), or the response itself when [stream] is set. *)
Inductive ReqResult : Type :=
| Parsed (v : pyval)
| Stream (r : Response).

(** [data[key]] on a result of [_make_request]. *)
Definition subscript (data : ReqResult) (key : string) : M pyval :=
  match data with
  | Parsed (PDict d) =>
      match dict_get key d with
      | Some v => ret v
      | None => raise (KeyError key)
      end
  | _ => raise TypeError
  end.

(** [ContractManagementClient._handle_error]: always raises.  The bare
    [except] takes over when [response.json()] fails to decode the body and
    also when the decoded value is not a dict, for [.get] then raises
    [AttributeError]. *)
Definition _handle_error {A} (response : Response) : M A :=
  let '(message, code, details) :=
    match json response with
    | JsonValue (PDict error_data) =>
        (dict_get_default "message" (PStr "An error occurred") error_data,
         dict_get_default "code" (PStr "UNKNOWN_ERROR") error_data,
         dict_get_default "details" PNone error_data)
    | _ =>
        (PStr ("HTTP " ++ str_of_Z (status_code response) ++ ": " ++ text response),
         PStr ("HTTP_" ++ str_of_Z (status_code response)),
         PNone)
    end in
  if status_code response =? 401 then
    raise (SDKError AuthenticationError message code (PInt (status_code response)) details)
  else if status_code response =? 400 then
    raise (SDKError ValidationError message code (PInt (status_code response)) details)
  else
    raise (SDKError APIError message code (PInt (status_code response)) details).

(** [response.raise_for_status()] *)
Definition raise_for_status (response : Response) : M unit :=
  if is_http_error response then raise (RequestsHTTPError response) else ret tt.

(** [response.json()]; its decoding error is a [RequestException]
    ([requests.exceptions.JSONDecodeError]), so the last [except] clause of
    [_make_request] catches it. *)
Definition response_json (response : Response) : M pyval :=
  match json response with
  | JsonValue v => ret v
  | JsonDecodeError msg => raise (RequestsFailure (OtherRequestException msg))
  end.

Section Pipeline.

Variable transport : Transport.

(** [self.session.request(method, url, **kwargs)] *)
Definition session_request (method : string) (url : Url) (kwargs : Kwargs)
  : M Response :=
  fun w =>
    let call := mkSent (self w) method url kwargs in
    let w' := mkWorld (self w) (log w ++ [call])%list in
    match transport (log w) call with
    | Responded r => (Return r, w')
    | Failed f => (Raise (RequestsFailure f), w')
    end.

(** The signature of [_make_request]. *)
Definition MakeRequest : Type :=
  string -> string -> option (list (string * pyval)) ->
  option (list (string * pyval)) -> option (list (string * FilePart)) ->
  bool -> M ReqResult.

(** The body of [_refresh_access_token], over the [_make_request] it
    calls. *)
Definition refresh_access_token_with (make_request : MakeRequest) : M unit :=
  c <- get_self ;;
  if negb (truthy (refresh_token c)) then
    raise (SDKError AuthenticationError (PStr "No refresh token available")
                    PNone PNone PNone)
  else
    data <- make_request "POST" "/auth/refresh"
              (Some [("refreshToken", refresh_token c)]) None None false ;;
    a <- subscript data "accessToken" ;;
    modify_self (set_access_token a) ;;;
    r <- subscript data "refreshToken" ;;
    modify_self (set_refresh_token r).

(** The [except] clauses of [_make_request], in their order. *)
Definition request_handlers {A} (e : exn) : M A :=
  match e with
  | RequestsHTTPError response => _handle_error response
  | RequestsFailure (ConnectionError msg) =>
      raise (SDKError NetworkError (PStr ("Connection error: " ++ msg))
                      PNone PNone PNone)
  | RequestsFailure (Timeout msg) =>
      raise (SDKError NetworkError (PStr ("Request timeout: " ++ msg))
                      PNone PNone PNone)
  | RequestsFailure (OtherRequestException msg) =>
      raise (SDKError APIError (PStr ("Request failed: " ++ msg))
                      PNone PNone PNone)
  | _ => raise e
  end.

(** The keyword arguments [_make_request] prepares: the bearer header when
    an access token is held, a file payload when given, else the JSON text
    of [data]. *)
Definition build_kwargs (c : Client)
  (data params : option (list (string * pyval)))
  (files : option (list (string * FilePart))) (stream : bool) : Kwargs :=
  let headers :=
    if truthy (access_token c)
    then [("Authorization", "Bearer " ++ py_str (access_token c))]
    else [] in
  let files_given := match files with Some (_ :: _) => true | _ => false end in
  mkKwargs (timeout c) (verify_ssl c) headers params stream
    (if files_given then files else None)
    (if files_given then None
     else match data with
          | Some d => Some (json_dumps (PDict d))
          | None => None
          end).

(** What [_make_request] does with the response it ends on. *)
Definition finish_response (stream : bool) (response : Response) : M ReqResult :=
  raise_for_status response ;;;
  if stream then ret (Stream response)
  else if has_content response then
    v <- response_json response ;; ret (Parsed v)
  else ret (Parsed PNone).

(** The keyword arguments of the retry:
    [headers['Authorization'] = f'Bearer {self.access_token}'] followed by
    [kwargs['headers'] = headers], in the dict [kwargs] that the first call
    was given.  Nothing else in it is built again: a file payload is the
    file object the first call has read. *)
Definition rebuild_kwargs (c : Client) (kwargs : Kwargs) : Kwargs :=
  with_headers
    (dict_set "Authorization" ("Bearer " ++ py_str (access_token c))
              (kw_headers kwargs))
    (after_send kwargs).

(** [ContractManagementClient._make_request].  [depth] is the number of
    nested calls of [_make_request] the interpreter still allows; past it
    the call raises [RecursionError]. *)
Fixpoint _make_request (depth : nat) (method endpoint : string)
  (data params : option (list (string * pyval)))
  (files : option (list (string * FilePart))) (stream : bool)
  : M ReqResult :=
  match depth with
  | O => raise RecursionError
  | S depth' =>
      c <- get_self ;;
      let url := urljoin (base_url c) endpoint in
      let kwargs := build_kwargs c data params files stream in
      try_except
        (response <- session_request method url kwargs ;;
         c <- get_self ;;
         response <-
           (if (status_code response =? 401) && truthy (refresh_token c) then
              refresh_access_token_with (_make_request depth') ;;;
              c <- get_self ;;
              session_request method url (rebuild_kwargs c kwargs)
            else ret response) ;;
         finish_response stream response)
        request_handlers
  end.

(** What [_make_request] does once the first response is in: the refresh
    and the retry, then the end of the pipeline. *)
Definition after_first_response (make_request : MakeRequest)
  (method : string) (url : Url) (kwargs : Kwargs) (stream : bool)
  (response : Response) : M ReqResult :=
  c <- get_self ;;
  response <-
    (if (status_code response =? 401) && truthy (refresh_token c) then
       refresh_access_token_with make_request ;;;
       c <- get_self ;;
       session_request method url (rebuild_kwargs c kwargs)
     else ret response) ;;
  finish_response stream response.

(** The first call of a request made by the client object [c]. *)
Definition first_call (c : Client) (method endpoint : string)
  (data params : option (list (string * pyval)))
  (files : option (list (string * FilePart))) (stream : bool) : Sent :=
  mkSent c method (urljoin (base_url c) endpoint)
         (build_kwargs c data params files stream).

(** [ContractManagementClient._refresh_access_token] *)
Definition _refresh_access_token (depth : nat) : M unit :=
  refresh_access_token_with (_make_request depth).

End Pipeline.

(** ** The methods of the client *)

(** An argument with a default, at a call site: [None] when the caller
    leaves it out, [Some v] when the caller passes [v]. *)
Definition or_default (default : pyval) (a : option pyval) : pyval :=
  match a with Some v => v | None => default end.

(** [if v: data[k] = v] *)
Definition set_if_truthy (k : string) (v : pyval) (data : list (string * pyval))
  : list (string * pyval) :=
  if truthy v then dict_set k v data else data.

(** [if v is not None: data[k] = v] *)
Definition set_if_not_None (k : string) (v : pyval) (data : list (string * pyval))
  : list (string * pyval) :=
  if is_not_None v then dict_set k v data else data.

(** The dict [login] sends. *)
Definition login_data (email password : pyval) (two_factor_code : option pyval)
  : list (string * pyval) :=
  let two_factor_code := or_default PNone two_factor_code in
  let data := [("email", email); ("password", password)] in
  set_if_truthy "twoFactorCode" two_factor_code data.

(** The query parameters of [get_contracts]. *)
Definition get_contracts_params
  (status type search page limit sort_by sort_order : option pyval)
  : list (string * pyval) :=
  let status := or_default PNone status in
  let type := or_default PNone type in
  let search := or_default PNone search in
  let page := or_default (PInt 1) page in
  let limit := or_default (PInt 20) limit in
  let sort_by := or_default (PStr "createdAt") sort_by in
  let sort_order := or_default (PStr "desc") sort_order in
  let params := [("page", page); ("limit", limit);
                 ("sortBy", sort_by); ("sortOrder", sort_order)] in
  let params := set_if_truthy "status" status params in
  let params := set_if_truthy "type" type params in
  set_if_truthy "search" search params.

(** The dict [create_contract] sends. *)
Definition create_contract_data (title type : pyval)
  (description value currency start_date end_date content parties
     metadata tags : option pyval)
  : list (string * pyval) :=
  let description := or_default PNone description in
  let value := or_default PNone value in
  let currency := or_default PNone currency in
  let start_date := or_default PNone start_date in
  let end_date := or_default PNone end_date in
  let content := or_default PNone content in
  let parties := or_default PNone parties in
  let metadata := or_default PNone metadata in
  let tags := or_default PNone tags in
  let data := [("title", title); ("type", type)] in
  let data := set_if_truthy "description" description data in
  let data := set_if_not_None "value" value data in
  let data := set_if_truthy "currency" currency data in
  let data := set_if_truthy "startDate" start_date data in
  let data := set_if_truthy "endDate" end_date data in
  let data := set_if_truthy "content" content data in
  let data := set_if_truthy "parties" parties data in
  let data := set_if_truthy "metadata" metadata data in
  set_if_truthy "tags" tags data.

(** The dict [submit_for_approval] sends. *)
Definition submit_for_approval_data (approvers : pyval) (message : option pyval)
  : list (string * pyval) :=
  let message := or_default PNone message in
  set_if_truthy "message" message [("approvers", approvers)].

(** The dict [approve_contract] sends. *)
Definition approve_contract_data (comments : option pyval)
  : list (string * pyval) :=
  let comments := or_default PNone comments in
  set_if_truthy "comments" comments [].


(** The query parameters of [get_templates]. *)
Definition get_templates_params (category is_public search page limit : option pyval)
  : list (string * pyval) :=
  let category := or_default PNone category in
  let is_public := or_default PNone is_public in
  let search := or_default PNone search in
  let page := or_default (PInt 1) page in
  let limit := or_default (PInt 20) limit in
  let params := [("page", page); ("limit", limit)] in
  let params := set_if_truthy "category" category params in
  let params := set_if_not_None "isPublic" is_public params in
  set_if_truthy "search" search params.


Section Methods.

Variable transport : Transport.
Variable fs : FileSystem.

(** The interpreter's bound on nested calls of [_make_request]. *)
Variable recursion_limit : nat.

Local Abbreviation request := (_make_request transport recursion_limit).

(** [login(email, password, two_factor_code=None)] *)
Definition login (email password : pyval) (two_factor_code : option pyval)
  : M ReqResult :=
  let data := login_data email password two_factor_code in
  response <- request "POST" "/auth/login" (Some data) None None false ;;
  a <- subscript response "accessToken" ;;
  modify_self (set_access_token a) ;;;
  r <- subscript response "refreshToken" ;;
  modify_self (set_refresh_token r) ;;;
  ret response.

(** [logout()] *)
Definition logout : M unit :=
  try_finally
    (request "POST" "/auth/logout" None None None false ;;; ret tt)
    (modify_self (set_access_token PNone) ;;;
     modify_self (set_refresh_token PNone)).

(** [get_current_user()] *)
Definition get_current_user : M ReqResult :=
  request "GET" "/users/me" None None None false.

(** [get_contracts(status, type, search, page, limit, sort_by, sort_order)] *)
Definition get_contracts
  (status type search page limit sort_by sort_order : option pyval)
  : M ReqResult :=
  let params :=
    get_contracts_params status type search page limit sort_by sort_order in
  request "GET" "/contracts" None (Some params) None false.

(** [get_contract(contract_id)] *)
Definition get_contract (contract_id : string) : M ReqResult :=
  request "GET" ("/contracts/" ++ contract_id) None None None false.

(** [create_contract(title, type, description=None, ..., tags=None)] *)
Definition create_contract (title type : pyval)
  (description value currency start_date end_date content parties
     metadata tags : option pyval) : M ReqResult :=
  let data := create_contract_data title type description value currency
                start_date end_date content parties metadata tags in
  request "POST" "/contracts" (Some data) None None false.

(** [update_contract(contract_id, **kwargs)] *)
Definition update_contract (contract_id : string)
  (kwargs : list (string * pyval)) : M ReqResult :=
  request "PUT" ("/contracts/" ++ contract_id) (Some kwargs) None None false.

(** [delete_contract(contract_id)] *)
Definition delete_contract (contract_id : string) : M unit :=
  request "DELETE" ("/contracts/" ++ contract_id) None None None false ;;;
  ret tt.

(** [submit_for_approval(contract_id, approvers, message=None)] *)
Definition submit_for_approval (contract_id : string) (approvers : pyval)
  (message : option pyval) : M ReqResult :=
  let data := submit_for_approval_data approvers message in
  request "POST" ("/contracts/" ++ contract_id ++ "/submit-approval")
          (Some data) None None false.

(** [approve_contract(contract_id, comments=None)] *)
Definition approve_contract (contract_id : string) (comments : option pyval)
  : M ReqResult :=
  let data := approve_contract_data comments in
  request "POST" ("/contracts/" ++ contract_id ++ "/approve")
          (Some data) None None false.


(** [get_templates(category, is_public, search, page, limit)] *)
Definition get_templates (category is_public search page limit : option pyval)
  : M ReqResult :=
  let params := get_templates_params category is_public search page limit in
  request "GET" "/templates" None (Some params) None false.


(** [update_template(template_id, **kwargs)] *)
Definition update_template (template_id : string)
  (kwargs : list (string * pyval)) : M ReqResult :=
  request "PUT" ("/templates/" ++ template_id) (Some kwargs) None None false.

(** [upload_attachment(contract_id, file_path, filename=None)]; the
    progress callback is never called by the method. *)
Definition upload_attachment (contract_id file_path : string)
  (filename : option string) : M ReqResult :=
  match fs file_path with
  | None => raise (ValueError ("File not found: " ++ file_path))
  | Some f =>
      let file_size := String.length f in
      let filename :=
        if truthy (of_optional filename)
        then match filename with Some n => n | None => basename file_path end
        else basename file_path in
      let files := [("file", mkFilePart filename f)] in
      request "POST" ("/contracts/" ++ contract_id ++ "/attachments")
              None None (Some files) false
  end.

End Methods.

(** ** Observations on a run *)

(** The calls a run added to the log. *)
Definition new_calls (w w' : World) : list Sent :=
  skipn (length (log w)) (log w').

(** A call of [POST /auth/refresh]. *)
Definition is_refresh_call (s : Sent) : bool :=
  match sent_url s with
  | urljoin _ endpoint =>
      (sent_method s =? "POST")%string && (endpoint =? "/auth/refresh")%string
  end.

(** Two client objects that differ at most in their tokens. *)
Definition same_settings (c c' : Client) : Prop :=
  base_url c' = base_url c /\ api_key c' = api_key c /\
  timeout c' = timeout c /\ verify_ssl c' = verify_ssl c /\
  session c' = session c.

(** The credentials a call carries on the wire. *)
Definition authorization (s : Sent) : option string :=
  hdr_get "Authorization" (effective_headers s).

Definition x_api_key (s : Sent) : option string :=
  hdr_get "X-API-Key" (effective_headers s).

(** A call made while an access token is held carries it as bearer. *)
Definition carries_bearer (s : Sent) : Prop :=
  truthy (access_token (sent_self s)) = true ->
  authorization s = Some ("Bearer " ++ py_str (access_token (sent_self s))).

(** The key [k] is not in the dict at all (so not there with [None]
    either). *)
Definition absent (k : string) (d : list (string * pyval)) : Prop :=
  ~ In k (map fst d).

(** The JSON text handed to the network by a call. *)
Definition body (s : Sent) : option string := kw_data (sent_kwargs s).





(** The retry of a request first sent by [c0], made by the client object
    [c] that came out of the refresh: same method, URL, parameters and JSON
    text, the bearer header of [c], and the file objects of an upload as
    the first call left them. *)
Definition retry_call (c0 c : Client) (method endpoint : string)
  (data params : option (list (string * pyval)))
  (files : option (list (string * FilePart))) (stream : bool) : Sent :=
  mkSent c method (urljoin (base_url c0) endpoint)
         (rebuild_kwargs c (build_kwargs c0 data params files stream)).





(** A run from [w] keeps a property [R] of the client object and only adds
    calls that satisfy [Q]. *)
Definition good (R : Client -> Prop) (Q : Sent -> Prop) {A} (m : M A)
  (w : World) : Prop :=
  R (self (snd (m w))) /\
  exists new, log (snd (m w)) = (log w ++ new)%list /\ Forall Q new.

Definition keeps (R : Client -> Prop) (Q : Sent -> Prop) {A} (m : M A) : Prop :=
  forall w, R (self w) -> good R Q m w.

(** ** Concrete servers and clients, for the examples *)

Module Scenario.

Definition requests_default_headers : list (string * string) :=
  [("User-Agent", "python-requests/2.31.0");
   ("Accept-Encoding", "gzip, deflate");
   ("Accept", "*/*");
   ("Connection", "keep-alive")].

(** A response whose body is the JSON text of [v]. *)
Definition json_response (status : Z) (v : pyval) : Response :=
  mkResponse status (json_dumps v) (JsonValue v)
             [("Content-Type", "application/json")].

(** A response without a body. *)
Definition empty_response (status : Z) : Response :=
  mkResponse status ""
    (JsonDecodeError "Expecting value: line 1 column 1 (char 0)") [].

(** A server that answers the n-th call with the n-th entry of a script,
    and refuses connections once the script is over. *)
Definition scripted (script : list TransportResult) : Transport :=
  fun history _ =>
    nth (length history) script (Failed (ConnectionError "Connection refused")).

(** A server that answers every call to [endpoint] with [r] and every
    other call with [other]. *)
Definition routed (endpoint : string) (r other : Response) : Transport :=
  fun _ call =>
    match sent_url call with
    | urljoin _ e => if (e =? endpoint)%string then Responded r else Responded other
    end.

Definition client (api_key access_token : option string) : Client :=
  __init__ requests_default_headers "https://api.example.com/"
           api_key access_token 30 3 true.

(** A client that holds the token pair [(a, r)]. *)
Definition logged_in (a r : string) : Client :=
  set_refresh_token (PStr r) (client None (Some a)).

Definition start (c : Client) : World := mkWorld c [].

Definition no_files : FileSystem := fun _ => None.

(** The server is down for maintenance: every call gets an empty 500. *)
Definition server_error : Transport := fun _ _ => Responded (empty_response 500).

(** The network is unreachable. *)
Definition unreachable : Transport :=
  fun _ _ => Failed (ConnectionError "Connection refused").

(** The token endpoint renews the pair; everything else is rejected once
    with 401 and accepted afterwards: the first call of the script is
    refused, the refresh succeeds, the retry goes through. *)
Definition expired_then_renewed : Transport :=
  scripted
    [Responded (json_response 401 (PDict [("message", PStr "Token expired")]));
     Responded (json_response 200
                  (PDict [("accessToken", PStr "T2");
                          ("refreshToken", PStr "R2")]));
     Responded (json_response 200 (PDict [("id", PStr "u-1")]))].

(** A server that accepts everything. *)
Definition accepting : Transport :=
  fun _ _ => Responded (json_response 200 (PDict [("ok", PBool true)])).


(** A gateway that answers with an HTML page. *)
Definition bad_gateway : Response :=
  mkResponse 502 "<html>Bad Gateway</html>"
    (JsonDecodeError "Expecting value: line 1 column 1 (char 0)")
    [("Content-Type", "text/html")].

(** A server that answers every call with [r]. *)
Definition always (r : Response) : Transport := fun _ _ => Responded r.


(** The token endpoint itself answers 401 once (the first call and the
    first refresh call are refused), then renews the pair. *)
Definition refresh_refused_once : Transport :=
  scripted
    [Responded (json_response 401 (PDict [("message", PStr "Token expired")]));
     Responded (json_response 401 (PDict [("message", PStr "Try again")]));
     Responded (json_response 200
                  (PDict [("accessToken", PStr "T2");
                          ("refreshToken", PStr "R2")]));
     Responded (json_response 200
                  (PDict [("accessToken", PStr "T3");
                          ("refreshToken", PStr "R3")]));
     Responded (json_response 200 (PDict [("id", PStr "u-1")]))].

(** Every call is refused with 401, the refresh call included. *)
Definition always_unauthorized : Transport :=
  always (json_response 401 (PDict [("message", PStr "Unauthorized")])).

(** A login endpoint that forgets the refresh token. *)
Definition login_without_refresh_token : Transport :=
  always (json_response 200 (PDict [("accessToken", PStr "T2")])).

(** How a call shows on the wire: method, endpoint, bearer header. *)
Definition summary (s : Sent) : string * string * option string :=
  match sent_url s with
  | urljoin _ endpoint => (sent_method s, endpoint, authorization s)
  end.

(** A server that sends every attachment as [nda.pdf], with the body
    [%PDF-1.7]. *)
Definition file_server : Transport :=
  always (mkResponse 200 "%PDF-1.7" (JsonDecodeError "Expecting value")
            [("Content-Disposition",
              "attachment; filename=" ++ String dquote ("nda.pdf" ++ str1 dquote))]).

Definition any_path_writable : string -> bool := fun _ => true.

End Scenario.

(** ** File transfer: downloads and exports *)

(** What is left of [s] after the prefix [p], when [s] starts with [p]. *)
Fixpoint strip_prefix (p s : string) : option string :=
  match p with
  | EmptyString => Some s
  | String c p' =>
      match s with
      | EmptyString => None
      | String c' s' => if Ascii.eqb c c' then strip_prefix p' s' else None
      end
  end.

(** The longest prefix of [s] without a double quote: what the group of
    the pattern, one or more characters other than a double quote, takes. *)
Fixpoint unquoted_run (s : string) : string :=
  match s with
  | EmptyString => EmptyString
  | String c s' =>
      if Ascii.eqb c dquote then EmptyString else String c (unquoted_run s')
  end.

(** The pattern of [download_attachment] tried at the start of [s]: the
    text [filename=], an optional double quote, a group of one or more
    characters other than a double quote, an optional double quote.  The
    result is group 1.  The optional quote is taken when it is there; if
    nothing but a quote follows it, giving the quote back does not help,
    for the group would then start on a quote. *)
Definition match_filename_here (s : string) : option string :=
  match strip_prefix "filename=" s with
  | None => None
  | Some rest =>
      let group :=
        match rest with
        | String c rest' =>
            if Ascii.eqb c dquote then unquoted_run rest' else unquoted_run rest
        | EmptyString => EmptyString
        end in
      match group with
      | EmptyString => None
      | _ => Some group
      end
  end.

(** [re.search(pattern, s)], then [group(1)]: the match at the leftmost
    position that has one. *)
Fixpoint search_filename (s : string) : option string :=
  match match_filename_here s with
  | Some group => Some group
  | None =>
      match s with
      | EmptyString => None
      | String _ s' => search_filename s'
      end
  end.

(** Pieces of at most [n] characters: [cut n k s] is the rest of the piece
    that still has room for [k] characters, and the pieces after it. *)
Fixpoint cut (n k : nat) (s : string) : string * list string :=
  match s with
  | EmptyString => (EmptyString, [])
  | String c s' =>
      match k with
      | O => let '(h, t) := cut n (Nat.pred n) s' in
             (EmptyString, String c h :: t)
      | S k' => let '(h, t) := cut n k' s' in (String c h, t)
      end
  end.

(** [response.iter_content(chunk_size)] on a body that arrives whole: the
    body in pieces of [chunk_size], none for an empty body. *)
Definition iter_content (r : Response) (chunk_size : nat) : list string :=
  match text r with
  | EmptyString => []
  | body => let '(h, t) := cut chunk_size chunk_size body in h :: t
  end.

(** [for chunk in chunks: f.write(chunk)] on a file just opened with
    ['wb']: what the file holds afterwards. *)
Definition write_chunks (chunks : list string) : string :=
  fold_left (fun written chunk => written ++ chunk) chunks "".

(** The file system after [path] has been written with [content]. *)
Definition write_file (path content : string) (disk : FileSystem) : FileSystem :=
  fun p => if (p =? path)%string then Some content else disk p.

(** What a download can raise: whatever the request raised, the [OSError]
    of an [open] that fails, or the [AttributeError] of reading a response
    that is not one. *)
Inductive io_exn : Type :=
| Raised (e : exn)
| OSError (path : string)
| AttributeError.

Set Warnings "-abstract-large-number".

Section Downloads.

Variable transport : Transport.
Variable recursion_limit : nat.

(** Whether [open(path, 'wb')] succeeds. *)
Variable writable : string -> bool.

(** [with open(output_path, 'wb') as f:] and the loop over
    [response.iter_content(chunk_size=8192)], for a body that arrives whole
    and writes that succeed: a failure in the middle of the loop is not
    part of the model. *)
Definition save_stream (response : ReqResult) (output_path : string)
  (disk : FileSystem) : (string + io_exn) * FileSystem :=
  if writable output_path then
    match response with
    | Stream r =>
        (inl output_path,
         write_file output_path (write_chunks (iter_content r 8192)) disk)
    | Parsed _ => (inr AttributeError, write_file output_path "" disk)
    end
  else (inr (OSError output_path), disk).



(** [export_contract(contract_id, format='pdf', output_path=None)] *)
Definition export_contract (contract_id : string) (format : option string)
  (output_path : option string) (disk : FileSystem) (w : World)
  : (string + io_exn) * World * FileSystem :=
  let format := match format with Some f => f | None => "pdf" end in
  match _make_request transport recursion_limit "GET"
          ("/contracts/" ++ contract_id ++ "/export")
          None (Some [("format", PStr format)]) None true w with
  | (Raise e, w') => (inr (Raised e), w', disk)
  | (Return response, w') =>
      let output_path :=
        match output_path with
        | Some p =>
            if truthy (PStr p) then p
            else "contract_" ++ contract_id ++ "." ++ format
        | None => "contract_" ++ contract_id ++ "." ++ format
        end in
      let '(res, disk') := save_stream response output_path disk in
      (res, w', disk')
  end.

End Downloads.

(** ** Observations on the calls of a request *)

(** A call of the request [method endpoint] of a client at [base], or a
    call of the token endpoint of that client. *)
Definition targets (base method endpoint : string) (s : Sent) : Prop :=
  (sent_method s = method /\ sent_url s = urljoin base endpoint) \/
  (sent_method s = "POST" /\ sent_url s = urljoin base "/auth/refresh").

(** A call made with the settings of the client object [c]. *)
Definition sent_with_settings (c : Client) (s : Sent) : Prop :=
  same_settings c (sent_self s) /\
  kw_timeout (sent_kwargs s) = timeout c /\
  kw_verify (sent_kwargs s) = verify_ssl c.

(** ** Observations on strings *)

(** [s.endswith(c)] for a character [c]. *)
Fixpoint ends_with (c : ascii) (s : string) : bool :=
  match s with
  | EmptyString => false
  | String a EmptyString => Ascii.eqb a c
  | String _ s' => ends_with c s'
  end.

(** ['/' * k] *)
Fixpoint slashes (k : nat) : string :=
  match k with
  | O => EmptyString
  | S k' => String "/" (slashes k')
  end.

(** Every value a computation returns satisfies [P]. *)
Definition returns {A} (P : A -> Prop) (m : M A) : Prop :=
  forall w a, fst (m w) = Return a -> P a.

(** ** More methods of the client: one request each *)

Section MoreMethods.

Variable transport : Transport.
Variable recursion_limit : nat.

Local Abbreviation request := (_make_request transport recursion_limit).

(** [get_contract_versions(contract_id)] *)
Definition get_contract_versions (contract_id : string) : M ReqResult :=
  request "GET" ("/contracts/" ++ contract_id ++ "/versions")
          None None None false.

(** [compare_contract_versions(contract_id, version1, version2)] *)
Definition compare_contract_versions (contract_id : string)
  (version1 version2 : pyval) : M ReqResult :=
  request "POST" ("/contracts/" ++ contract_id ++ "/compare")
          (Some [("version1", version1); ("version2", version2)])
          None None false.

(** [reject_contract(contract_id, reason)] *)
Definition reject_contract (contract_id : string) (reason : pyval)
  : M ReqResult :=
  request "POST" ("/contracts/" ++ contract_id ++ "/reject")
          (Some [("reason", reason)]) None None false.

(** [sign_contract(contract_id, signature_data)] *)
Definition sign_contract (contract_id : string)
  (signature_data : list (string * pyval)) : M ReqResult :=
  request "POST" ("/contracts/" ++ contract_id ++ "/sign")
          (Some signature_data) None None false.

(** [get_comments(contract_id)] *)
Definition get_comments (contract_id : string) : M ReqResult :=
  request "GET" ("/contracts/" ++ contract_id ++ "/comments")
          None None None false.

(** [update_comment(contract_id, comment_id, content)] *)
Definition update_comment (contract_id comment_id : string) (content : pyval)
  : M ReqResult :=
  request "PUT" ("/contracts/" ++ contract_id ++ "/comments/" ++ comment_id)
          (Some [("content", content)]) None None false.

(** [delete_comment(contract_id, comment_id)] *)
Definition delete_comment (contract_id comment_id : string) : M unit :=
  request "DELETE"
          ("/contracts/" ++ contract_id ++ "/comments/" ++ comment_id)
          None None None false ;;;
  ret tt.

(** [get_template(template_id)] *)
Definition get_template (template_id : string) : M ReqResult :=
  request "GET" ("/templates/" ++ template_id) None None None false.

(** [delete_template(template_id)] *)
Definition delete_template (template_id : string) : M unit :=
  request "DELETE" ("/templates/" ++ template_id) None None None false ;;;
  ret tt.

(** [get_contract_analytics(contract_id)] *)
Definition get_contract_analytics (contract_id : string) : M ReqResult :=
  request "GET" ("/analytics/contracts/" ++ contract_id)
          None None None false.

(** [search_contracts(query)] *)
Definition search_contracts (query : pyval) : M ReqResult :=
  request "GET" "/contracts/search" None (Some [("q", query)]) None false.

(** [bulk_update_contracts(contract_ids, updates)] *)
Definition bulk_update_contracts (contract_ids updates : pyval) : M ReqResult :=
  request "POST" "/contracts/bulk-update"
          (Some [("contractIds", contract_ids); ("updates", updates)])
          None None false.

End MoreMethods.

(** ** The query string *)

(** The values [requests] sends for one entry of [params]
    ([RequestEncodingMixin._encode_params]): a string, or a value that
    cannot be iterated, stands for itself; a list stands for its elements
    and a dict for its keys; [None] is left out, alone or in a list. *)
Definition encoded_values (v : pyval) : list pyval :=
  match v with
  | PNone => []
  | PList l => filter is_not_None l
  | PDict d => map (fun kv => PStr (fst kv)) d
  | _ => [v]
  end.

(** The pairs [(key, value)] that [requests] hands to [urlencode], in the
    order of the dict. *)
Definition query_items (params : list (string * pyval))
  : list (string * pyval) :=
  flat_map (fun kv => map (pair (fst kv)) (encoded_values (snd kv))) params.

(** The values the query string has under the key [k]. *)
Definition sent_under (k : string) (params : list (string * pyval))
  : list pyval :=
  map snd (filter (fun kv => (fst kv =? k)%string) (query_items params)).

(** * Properties *)

(** ** Python values at work *)

Example py_str_int : py_str (PInt (-42)) = "-42".
Proof. reflexivity. Qed.

Example py_str_none : ("Bearer " ++ py_str PNone)%string = "Bearer None".
Proof. reflexivity. Qed.

Example rstrip_slash_ex :
  rstrip_slash "https://api.example.com//" = "https://api.example.com".
Proof. reflexivity. Qed.

Example basename_ex : basename "/tmp/a/b.pdf" = "b.pdf".
Proof. reflexivity. Qed.

Example empty_values_are_falsy :
  map truthy [PNone; PStr ""; PList []; PDict []; PInt 0; PBool false]
  = [false; false; false; false; false; false].
Proof. reflexivity. Qed.

Example json_dumps_ex :
  json_dumps (PDict [("title", PStr "T"); ("n", PInt 0); ("x", PNone)])
  = "{" ++ json_string "title" ++ ": " ++ json_string "T" ++ ", "
        ++ json_string "n" ++ ": 0, " ++ json_string "x" ++ ": null}".
Proof. reflexivity. Qed.

Example init_strips_and_sets :
  let c := Scenario.client (Some "K-123") (Some "T1") in
  base_url c = "https://api.example.com" /\
  access_token c = PStr "T1" /\
  refresh_token c = PNone /\
  hdr_get "x-api-key" (headers (session c)) = Some "K-123" /\
  hdr_get "User-Agent" (headers (session c))
  = Some "ContractManagementSDK-Python/1.0.0".
Proof. repeat split. Qed.

(** ** One step of the pipeline *)

Lemma make_request_unfold (transport : Transport) (depth : nat)
  method endpoint data params files stream (w : World) :
  _make_request transport (S depth) method endpoint data params files stream w
  = try_except
      (response <- session_request transport method
                     (urljoin (base_url (self w)) endpoint)
                     (build_kwargs (self w) data params files stream) ;;
       after_first_response transport (_make_request transport depth) method
         (urljoin (base_url (self w)) endpoint)
         (build_kwargs (self w) data params files stream) stream response)
      request_handlers w.
Proof. reflexivity. Qed.

(** ** Steps that leave the world alone *)

Lemma subscript_world (data : ReqResult) (key : string) (w : World) :
  snd (subscript data key w) = w.
Proof.
  destruct data as [[ | | | | | d] | r]; simpl; try reflexivity.
  destruct (dict_get key d); reflexivity.
Qed.

Lemma handle_error_world {A} (response : Response) (w : World) :
  snd (@_handle_error A response w) = w.
Proof.
  unfold _handle_error.
  destruct (json response) as [[ | | | | | d] | msg]; simpl;
    destruct (status_code response =? 401);
    try destruct (status_code response =? 400); reflexivity.
Qed.

Lemma request_handlers_world {A} (e : exn) (w : World) :
  snd (@request_handlers A e w) = w.
Proof.
  destruct e as [ | r | [m | m | m] | | | | ]; simpl; try reflexivity.
  apply handle_error_world.
Qed.

Lemma finish_response_world (stream : bool) (r : Response) (w : World) :
  snd (finish_response stream r w) = w.
Proof.
  unfold finish_response, raise_for_status, bind, response_json.
  destruct (is_http_error r); simpl; [reflexivity | ].
  destruct stream; simpl; [reflexivity | ].
  destruct (has_content r); simpl; [ | reflexivity].
  destruct (json r); reflexivity.
Qed.

(** [_handle_error] raises on every response. *)
Lemma handle_error_raises {A} (response : Response) (w : World) :
  exists cls message code details,
    fst (@_handle_error A response w)
    = Raise (SDKError cls message code (PInt (status_code response)) details).
Proof.
  unfold _handle_error.
  destruct (json response) as [[ | | | | | d] | msg]; simpl;
    destruct (status_code response =? 401);
    try destruct (status_code response =? 400); simpl; eauto.
Qed.

(** ** A small logic of runs: what every call on the log satisfies *)

Section Keeps.

Variable R : Client -> Prop.
Variable Q : Sent -> Prop.

Lemma good_fixed {A} (m : M A) (w : World) :
  snd (m w) = w -> R (self w) -> good R Q m w.
Proof.
  intros E HR. unfold good. rewrite E. split; [exact HR | ].
  exists []. rewrite app_nil_r. split; [reflexivity | constructor].
Qed.

Lemma good_eq {A} (m m' : M A) (w : World) :
  m w = m' w -> good R Q m' w -> good R Q m w.
Proof. unfold good. intros ->. exact (fun H => H). Qed.

Lemma keeps_ret {A} (a : A) : keeps R Q (ret a).
Proof. intros w HR. apply good_fixed; [reflexivity | exact HR]. Qed.

Lemma keeps_raise {A} (e : exn) : keeps R Q (@raise A e).
Proof. intros w HR. apply good_fixed; [reflexivity | exact HR]. Qed.

Lemma keeps_get_self : keeps R Q get_self.
Proof. intros w HR. apply good_fixed; [reflexivity | exact HR]. Qed.

Lemma keeps_subscript (data : ReqResult) (key : string) :
  keeps R Q (subscript data key).
Proof. intros w HR. apply good_fixed; [apply subscript_world | exact HR]. Qed.

Lemma keeps_request_handlers {A} (e : exn) : keeps R Q (@request_handlers A e).
Proof. intros w HR. apply good_fixed; [apply request_handlers_world | exact HR]. Qed.

Lemma keeps_finish_response (stream : bool) (r : Response) :
  keeps R Q (finish_response stream r).
Proof. intros w HR. apply good_fixed; [apply finish_response_world | exact HR]. Qed.

Lemma keeps_modify_self (f : Client -> Client) :
  (forall c, R c -> R (f c)) -> keeps R Q (modify_self f).
Proof.
  intros Hf w HR. split; simpl; [apply Hf, HR | ].
  exists []. rewrite app_nil_r. split; [reflexivity | constructor].
Qed.

Lemma good_bind {A B} (m : M A) (k : A -> M B) (w : World) :
  good R Q m w -> (forall a, keeps R Q (k a)) -> good R Q (bind m k) w.
Proof.
  intros [HR [new [Hlog HQ]]] Hk. unfold good, bind.
  destruct (m w) as [[a | e] w1] eqn:E; simpl in *.
  - destruct (Hk a w1 HR) as [HR2 [new2 [Hlog2 HQ2]]].
    split; [exact HR2 | ].
    exists (new ++ new2)%list. rewrite Hlog2, Hlog, app_assoc.
    split; [reflexivity | apply Forall_app; split; assumption].
  - split; [exact HR | ]. exists new. split; assumption.
Qed.

Lemma keeps_bind {A B} (m : M A) (k : A -> M B) :
  keeps R Q m -> (forall a, keeps R Q (k a)) -> keeps R Q (bind m k).
Proof. intros Hm Hk w HR. apply good_bind; [apply Hm, HR | exact Hk]. Qed.

Lemma good_try_except {A} (m : M A) (h : exn -> M A) (w : World) :
  good R Q m w -> (forall e, keeps R Q (h e)) -> good R Q (try_except m h) w.
Proof.
  intros [HR [new [Hlog HQ]]] Hh. unfold good, try_except.
  destruct (m w) as [[a | e] w1] eqn:E; simpl in *.
  - split; [exact HR | ]. exists new. split; assumption.
  - destruct (Hh e w1 HR) as [HR2 [new2 [Hlog2 HQ2]]].
    split; [exact HR2 | ].
    exists (new ++ new2)%list. rewrite Hlog2, Hlog, app_assoc.
    split; [reflexivity | apply Forall_app; split; assumption].
Qed.

Lemma keeps_try_finally {A} (m : M A) (f : M unit) :
  keeps R Q m -> keeps R Q f -> keeps R Q (try_finally m f).
Proof.
  intros Hm Hf w HR. destruct (Hm w HR) as [HR1 [new [Hlog HQ]]].
  unfold good, try_finally.
  destruct (m w) as [r w1] eqn:E; simpl in *.
  destruct (Hf w1 HR1) as [HR2 [new2 [Hlog2 HQ2]]].
  assert (X : R (self (snd (f w1))) /\
              exists n, log (snd (f w1)) = (log w ++ n)%list /\ Forall Q n).
  { split; [exact HR2 | ]. exists (new ++ new2)%list.
    rewrite Hlog2, Hlog, app_assoc.
    split; [reflexivity | apply Forall_app; split; assumption]. }
  destruct (f w1) as [[u | e] w2]; exact X.
Qed.

(** A call is fine when [Q] holds of it for every client object in [R]. *)
Lemma keeps_session_request (transport : Transport) (method : string)
  (url : Url) (kwargs : Client -> Kwargs) :
  (forall c, R c -> Q (mkSent c method url (kwargs c))) ->
  keeps R Q (c <- get_self ;; session_request transport method url (kwargs c)).
Proof.
  intros HQ w HR. unfold good, bind, get_self, session_request.
  destruct (transport (log w) _); simpl;
    (split; [exact HR | ]; eexists; split;
     [reflexivity | constructor; [apply HQ, HR | constructor]]).
Qed.

Hypothesis R_access : forall c v, R c -> R (set_access_token v c).
Hypothesis R_refresh : forall c v, R c -> R (set_refresh_token v c).

Lemma keeps_refresh (make_request : MakeRequest) :
  (forall method endpoint data params files stream,
      keeps R Q (make_request method endpoint data params files stream)) ->
  keeps R Q (refresh_access_token_with make_request).
Proof.
  intros Hmk. unfold refresh_access_token_with.
  apply keeps_bind; [apply keeps_get_self | intros c].
  destruct (negb (truthy (refresh_token c))); [apply keeps_raise | ].
  apply keeps_bind; [apply Hmk | intros data].
  apply keeps_bind; [apply keeps_subscript | intros a].
  apply keeps_bind; [apply keeps_modify_self; intros; apply R_access; assumption | intros _].
  apply keeps_bind; [apply keeps_subscript | intros r].
  apply keeps_modify_self; intros; apply R_refresh; assumption.
Qed.

Variable transport : Transport.

Hypothesis Q_first :
  forall c method endpoint data params files stream,
    R c ->
    Q (mkSent c method (urljoin (base_url c) endpoint)
              (build_kwargs c data params files stream)).

Hypothesis Q_retry :
  forall c0 c method endpoint data params files stream,
    R c0 -> R c ->
    Q (mkSent c method (urljoin (base_url c0) endpoint)
              (rebuild_kwargs c (build_kwargs c0 data params files stream))).

Lemma keeps_after_first (make_request : MakeRequest) (c0 : Client)
  method endpoint data params files stream (response : Response) :
  R c0 ->
  (forall method endpoint data params files stream,
      keeps R Q (make_request method endpoint data params files stream)) ->
  keeps R Q
    (after_first_response transport make_request method
       (urljoin (base_url c0) endpoint)
       (build_kwargs c0 data params files stream) stream response).
Proof.
  intros HR0 Hmk. unfold after_first_response.
  apply keeps_bind; [apply keeps_get_self | intros c].
  apply keeps_bind; [ | intros r; apply keeps_finish_response].
  destruct ((status_code response =? 401) && truthy (refresh_token c)).
  - apply keeps_bind; [apply keeps_refresh; exact Hmk | intros _].
    apply (keeps_session_request transport method
             (urljoin (base_url c0) endpoint)
             (fun c => rebuild_kwargs c
                (build_kwargs c0 data params files stream))).
    intros c' HR'. apply Q_retry; assumption.
  - apply keeps_ret.
Qed.

(** Every call [_make_request] makes, at any depth, is a first attempt or
    a retry after a refresh. *)
Lemma keeps_make_request (depth : nat) :
  forall method endpoint data params files stream,
    keeps R Q (_make_request transport depth method endpoint data params files stream).
Proof.
  induction depth as [ | depth IH]; intros method endpoint data params files stream.
  - apply keeps_raise.
  - intros w HR. eapply good_eq; [apply make_request_unfold | ].
    apply good_try_except; [ | intros e; apply keeps_request_handlers].
    apply good_bind.
    + unfold good, session_request.
      destruct (transport (log w) _); simpl;
        (split; [exact HR | ]; eexists; split;
         [reflexivity | constructor; [apply Q_first, HR | constructor]]).
    + intros response. apply keeps_after_first; [exact HR | exact IH].
Qed.

End Keeps.

(** ** Logout *)

(** The [finally] clause of [logout] runs last on every path. *)
Lemma logout_final_tokens (transport : Transport) (recursion_limit : nat)
  (w : World) :
  access_token (self (snd (logout transport recursion_limit w))) = PNone /\
  refresh_token (self (snd (logout transport recursion_limit w))) = PNone.
Proof.
  unfold logout, try_finally.
  destruct (bind _ _ w) as [r w1].
  simpl. split; reflexivity.
Qed.

(** C4. [logout()] leaves both [access_token] and [refresh_token] at [None]
    on every exit path: whatever the network answers, whether the call to
    the logout endpoint returns or raises (a network error, an HTTP error,
    or anything else), the client object ends with both tokens cleared. *)
Theorem logout_clears_tokens (transport : Transport) (recursion_limit : nat)
  (w : World) :
  access_token (self (snd (logout transport recursion_limit w))) = PNone /\
  refresh_token (self (snd (logout transport recursion_limit w))) = PNone.
Proof. apply logout_final_tokens. Qed.

Example logout_after_connection_error :
  let run := logout Scenario.unreachable 5
               (Scenario.start (Scenario.logged_in "T1" "R1")) in
  fst run = Raise (SDKError NetworkError
                     (PStr "Connection error: Connection refused")
                     PNone PNone PNone) /\
  access_token (self (snd run)) = PNone /\
  refresh_token (self (snd run)) = PNone.
Proof. vm_compute. repeat split. Qed.

(** C3, as the code has it.  [logout()] does not swallow the failure of its
    server call: when the POST to the logout endpoint raises an error,
    [logout()] clears both tokens and then raises that same error to its
    caller; and when the POST returns, [logout()] returns. *)
Theorem logout_reraises (transport : Transport) (recursion_limit : nat)
  (w : World) (e : exn) :
  fst (_make_request transport recursion_limit "POST" "/auth/logout"
         None None None false w) = Raise e ->
  fst (logout transport recursion_limit w) = Raise e /\
  access_token (self (snd (logout transport recursion_limit w))) = PNone /\
  refresh_token (self (snd (logout transport recursion_limit w))) = PNone.
Proof.
  intros H. split; [ | apply logout_final_tokens].
  unfold logout, try_finally, bind.
  destruct (_make_request _ _ _ _ _ _ _ _ w) as [[a | e'] w1]; simpl in *.
  - discriminate H.
  - injection H as ->. reflexivity.
Qed.

(** A server that answers the logout call with 500: the [APIError] comes
    out of [logout], after the tokens are cleared. *)
Lemma logout_reraises_witness :
  fst (logout Scenario.server_error 5
         (Scenario.start (Scenario.logged_in "T1" "R1")))
  = Raise (SDKError APIError (PStr "HTTP 500: ") (PStr "HTTP_500")
             (PInt 500) PNone) /\
  access_token (self (snd (logout Scenario.server_error 5
         (Scenario.start (Scenario.logged_in "T1" "R1"))))) = PNone /\
  refresh_token (self (snd (logout Scenario.server_error 5
         (Scenario.start (Scenario.logged_in "T1" "R1"))))) = PNone.
Proof.
  apply (logout_reraises Scenario.server_error 5
           (Scenario.start (Scenario.logged_in "T1" "R1"))).
  vm_compute. reflexivity.
Defined.

(** C3, as stated, fails: against a server that answers the logout call
    with status 500, [logout()] does not return normally; the [APIError]
    of the call reaches the caller. *)
Lemma logout_does_not_swallow :
  fst (logout Scenario.server_error 5
         (Scenario.start (Scenario.logged_in "T1" "R1")))
  <> Return tt /\
  fst (logout Scenario.server_error 5
         (Scenario.start (Scenario.logged_in "T1" "R1")))
  = Raise (SDKError APIError (PStr "HTTP 500: ") (PStr "HTTP_500")
             (PInt 500) PNone).
Proof. vm_compute. split; [discriminate | reflexivity]. Qed.

(** When the POST returns, so does [logout()]. *)
Lemma logout_returns (transport : Transport) (recursion_limit : nat)
  (w : World) (a : ReqResult) :
  fst (_make_request transport recursion_limit "POST" "/auth/logout"
         None None None false w) = Return a ->
  fst (logout transport recursion_limit w) = Return tt.
Proof.
  intros H. unfold logout, try_finally, bind.
  destruct (_make_request _ _ _ _ _ _ _ _ w) as [[a' | e'] w1]; simpl in *.
  - reflexivity.
  - discriminate H.
Qed.

(** ** File upload *)

(** C7. [upload_attachment] on a path that does not exist raises
    [ValueError] (a local error, which is none of the SDK's [APIError]
    classes, so neither [ValidationError] nor [NetworkError]) before any
    call reaches the network, and leaves the client object, tokens and
    session included, as it was. *)
Theorem upload_missing_file_fails_locally (transport : Transport)
  (fs : FileSystem) (recursion_limit : nat)
  (contract_id file_path : string) (filename : option string) (w : World) :
  fs file_path = None ->
  let run := upload_attachment transport fs recursion_limit
               contract_id file_path filename w in
  fst run = Raise (ValueError ("File not found: " ++ file_path)) /\
  (forall cls message code status details,
      fst run <> Raise (SDKError cls message code status details)) /\
  new_calls w (snd run) = [] /\
  self (snd run) = self w /\
  snd run = w.
Proof.
  intros H. unfold upload_attachment. rewrite H. simpl.
  repeat split; try reflexivity.
  - intros; discriminate.
  - unfold new_calls. apply skipn_all.
Qed.

(** A path that is not on the file system. *)
Lemma upload_missing_file_fails_locally_witness :
  let w := Scenario.start (Scenario.logged_in "T1" "R1") in
  let run := upload_attachment Scenario.server_error Scenario.no_files 5
               "c-17" "/tmp/missing.pdf" None w in
  fst run = Raise (ValueError "File not found: /tmp/missing.pdf") /\
  (forall cls message code status details,
      fst run <> Raise (SDKError cls message code status details)) /\
  new_calls w (snd run) = [] /\
  self (snd run) = self w /\
  snd run = w.
Proof.
  apply (upload_missing_file_fails_locally Scenario.server_error
           Scenario.no_files 5 "c-17" "/tmp/missing.pdf" None
           (Scenario.start (Scenario.logged_in "T1" "R1"))).
  reflexivity.
Defined.

(** ** Headers *)

Lemma hdr_get_set_same (k v : string) (h : list (string * string)) :
  hdr_get k (hdr_set k v h) = Some v.
Proof.
  induction h as [ | [k' v'] h IH]; simpl.
  - rewrite String.eqb_refl. reflexivity.
  - destruct (lower k =? lower k')%string eqn:E; simpl.
    + rewrite String.eqb_refl. reflexivity.
    + rewrite E. exact IH.
Qed.

Lemma hdr_get_set_other (k k' v : string) (h : list (string * string)) :
  (lower k =? lower k')%string = false ->
  hdr_get k (hdr_set k' v h) = hdr_get k h.
Proof.
  intros D. induction h as [ | [k2 v2] h IH]; simpl.
  - rewrite D. reflexivity.
  - destruct (lower k' =? lower k2)%string eqn:E; simpl.
    + rewrite D. apply String.eqb_eq in E. rewrite <- E, D. reflexivity.
    + destruct (lower k =? lower k2)%string; [reflexivity | exact IH].
Qed.

(** The request's own headers are empty or the single bearer header. *)
Lemma build_kwargs_headers (c : Client) data params files stream :
  kw_headers (build_kwargs c data params files stream)
  = if truthy (access_token c)
    then [("Authorization", "Bearer " ++ py_str (access_token c))]
    else [].
Proof. reflexivity. Qed.

Lemma rebuild_kwargs_headers (c0 c : Client) data params files stream :
  kw_headers (rebuild_kwargs c (build_kwargs c0 data params files stream))
  = [("Authorization", "Bearer " ++ py_str (access_token c))].
Proof.
  unfold rebuild_kwargs. simpl. destruct (truthy (access_token c0)); reflexivity.
Qed.

Lemma first_call_carries_bearer (c : Client) method url data params files stream :
  carries_bearer (mkSent c method url (build_kwargs c data params files stream)).
Proof.
  unfold carries_bearer, authorization, effective_headers. simpl. intros T.
  rewrite T. unfold hdr_update. simpl. apply hdr_get_set_same.
Qed.

Lemma retry_carries_bearer (c0 c : Client) method url data params files stream :
  carries_bearer
    (mkSent c method url
            (rebuild_kwargs c (build_kwargs c0 data params files stream))).
Proof.
  unfold carries_bearer, authorization, effective_headers. intros _.
  cbn [sent_kwargs sent_self]. rewrite rebuild_kwargs_headers.
  unfold hdr_update. simpl. apply hdr_get_set_same.
Qed.

Lemma new_calls_app (w w' : World) (new : list Sent) :
  log w' = (log w ++ new)%list -> new_calls w w' = new.
Proof.
  intros E. unfold new_calls. rewrite E.
  rewrite skipn_app, skipn_all, Nat.sub_diag. reflexivity.
Qed.

(** With nothing to keep, the logic says that the log only grows. *)
Lemma log_grows_make_request (transport : Transport) (depth : nat)
  method endpoint data params files stream :
  keeps (fun _ => True) (fun _ => True)
    (_make_request transport depth method endpoint data params files stream).
Proof. apply keeps_make_request; auto. Qed.

Lemma log_grows_after_first (transport : Transport) (depth : nat) (c0 : Client)
  method endpoint data params files stream (response : Response) :
  keeps (fun _ => True) (fun _ => True)
    (after_first_response transport (_make_request transport depth) method
       (urljoin (base_url c0) endpoint)
       (build_kwargs c0 data params files stream) stream response).
Proof.
  apply keeps_after_first; auto.
  intros. apply log_grows_make_request.
Qed.

(** A request that is allowed to run starts by sending its first call. *)
Lemma make_request_starts (transport : Transport) (depth : nat)
  method endpoint data params files stream (w : World) :
  exists rest,
    log (snd (_make_request transport (S depth) method endpoint data params
                files stream w))
    = (log w ++ first_call (self w) method endpoint data params files stream
             :: rest)%list.
Proof.
  rewrite make_request_unfold. unfold try_except, bind at 1.
  unfold session_request at 1.
  destruct (transport (log w) _) as [r | f].
  - destruct (log_grows_after_first transport depth (self w)
                method endpoint data params files stream r
                (mkWorld (self w)
                   (log w ++ [first_call (self w) method endpoint data
                                params files stream])%list) I)
      as [_ [new [Hlog _]]].
    unfold first_call in *.
    destruct (after_first_response _ _ _ _ _ _ _ _) as [[a | e] w2];
      simpl in *.
    + exists new. rewrite Hlog, <- app_assoc. reflexivity.
    + rewrite request_handlers_world. exists new.
      rewrite Hlog, <- app_assoc. reflexivity.
  - rewrite request_handlers_world. simpl. exists []. reflexivity.
Qed.

(** C8. Every call that goes to the network while an access token is held
    carries an [Authorization] header whose value is exactly ["Bearer "]
    followed by the access token the client holds at that moment.  This
    covers the first attempt of a request (which is always sent), the
    refresh call, and the retry after a refresh, at any depth of nesting. *)
Theorem bearer_header_on_every_call (transport : Transport) (depth : nat)
  (method endpoint : string) (data params : option (list (string * pyval)))
  (files : option (list (string * FilePart))) (stream : bool) (w : World) :
  (exists rest,
      new_calls w
        (snd (_make_request transport (S depth) method endpoint data params
                files stream w))
      = first_call (self w) method endpoint data params files stream :: rest) /\
  Forall
    (fun s =>
       truthy (access_token (sent_self s)) = true ->
       authorization s
       = Some ("Bearer " ++ py_str (access_token (sent_self s))) /\
       forall token, access_token (sent_self s) = PStr token ->
                     authorization s = Some ("Bearer " ++ token))
    (new_calls w
       (snd (_make_request transport (S depth) method endpoint data params
               files stream w))).
Proof.
  split.
  - destruct (make_request_starts transport depth method endpoint data
                params files stream w) as [rest Hlog].
    exists rest. apply new_calls_app. exact Hlog.
  - destruct (keeps_make_request (fun _ => True) carries_bearer
                ltac:(auto) ltac:(auto) transport
                ltac:(intros; apply first_call_carries_bearer)
                ltac:(intros; apply retry_carries_bearer)
                (S depth) method endpoint data params files stream w I)
      as [_ [new [Hlog HQ]]].
    rewrite (new_calls_app _ _ _ Hlog).
    eapply Forall_impl; [ | exact HQ].
    intros s Hs T. split; [exact (Hs T) | ].
    intros token E. rewrite (Hs T), E. reflexivity.
Qed.

(** A request that goes through a refresh: the three calls carry the token
    held when each was made. *)
Lemma bearer_header_on_every_call_witness :
  let w := Scenario.start (Scenario.logged_in "T1" "R1") in
  let w' := snd (_make_request Scenario.expired_then_renewed 3 "GET"
                   "/users/me" None None None false w) in
  map authorization (new_calls w w')
  = [Some "Bearer T1"; Some "Bearer T1"; Some "Bearer T2"] /\
  Forall
    (fun s =>
       truthy (access_token (sent_self s)) = true ->
       authorization s
       = Some ("Bearer " ++ py_str (access_token (sent_self s))) /\
       forall token, access_token (sent_self s) = PStr token ->
                     authorization s = Some ("Bearer " ++ token))
    (new_calls w w').
Proof.
  split; [vm_compute; reflexivity | ].
  exact (proj2 (bearer_header_on_every_call Scenario.expired_then_renewed 2
                  "GET" "/users/me" None None None false
                  (Scenario.start (Scenario.logged_in "T1" "R1")))).
Defined.

(** ** API key and bearer token together *)

(** [__init__] puts a non-empty API key on the session. *)
Lemma init_sets_api_key (default_headers : list (string * string))
  (url key : string) (token : option string) (t r : Z) (v : bool) :
  key <> "" ->
  hdr_get "X-API-Key"
    (headers (session (__init__ default_headers url (Some key) token t r v)))
  = Some key.
Proof.
  intros Hk. unfold __init__. simpl.
  destruct (key =? "")%string eqn:E.
  - apply String.eqb_eq in E. contradiction.
  - simpl. apply hdr_get_set_same.
Qed.

Lemma api_key_survives_bearer (c : Client) (key : string) method url
  (kwargs : Kwargs) :
  hdr_get "X-API-Key" (headers (session c)) = Some key ->
  (kw_headers kwargs = [] \/
   exists v, kw_headers kwargs = [("Authorization", v)]) ->
  x_api_key (mkSent c method url kwargs) = Some key.
Proof.
  intros Hk [E | [v E]]; unfold x_api_key, effective_headers; simpl;
    rewrite E; unfold hdr_update; simpl; [exact Hk | ].
  rewrite hdr_get_set_other; [exact Hk | reflexivity].
Qed.

(** C9, as the code has it.  When the client was built with a non-empty
    API key and holds an access token, every call it sends carries both
    credentials: the [X-API-Key] header of the session and the
    [Authorization: Bearer] header of the request.  Neither header
    replaces or removes the other. *)
Theorem api_key_and_bearer_both_sent (transport : Transport) (depth : nat)
  (method endpoint : string) (data params : option (list (string * pyval)))
  (files : option (list (string * FilePart))) (stream : bool) (w : World)
  (default_headers : list (string * string)) (url key : string)
  (token : option string) (t r : Z) (v : bool) :
  key <> "" ->
  session (self w)
  = session (__init__ default_headers url (Some key) token t r v) ->
  (exists rest,
      new_calls w
        (snd (_make_request transport (S depth) method endpoint data params
                files stream w))
      = first_call (self w) method endpoint data params files stream :: rest) /\
  Forall
    (fun s =>
       x_api_key s = Some key /\
       (truthy (access_token (sent_self s)) = true ->
        authorization s
        = Some ("Bearer " ++ py_str (access_token (sent_self s)))))
    (new_calls w
       (snd (_make_request transport (S depth) method endpoint data params
               files stream w))).
Proof.
  intros Hk Hs. split.
  { destruct (make_request_starts transport depth method endpoint data
                params files stream w) as [rest Hlog].
    exists rest. apply new_calls_app. exact Hlog. }
  revert Hk Hs. generalize (S depth). clear depth. intros depth.
  intros Hk Hs.
  pose (R := fun c : Client =>
               hdr_get "X-API-Key" (headers (session c)) = Some key).
  assert (HR : R (self w)).
  { unfold R. rewrite Hs. apply init_sets_api_key. exact Hk. }
  destruct (keeps_make_request R
              (fun s => x_api_key s = Some key /\ carries_bearer s)
              ltac:(intros c x H; exact H) ltac:(intros c x H; exact H)
              transport
              ltac:(intros c m e d p f s H; split;
                    [apply api_key_survives_bearer;
                     [exact H
                     | rewrite build_kwargs_headers;
                       destruct (truthy (access_token c)); eauto]
                    | apply first_call_carries_bearer])
              ltac:(intros c0 c m e d p f s H0 H; split;
                    [apply api_key_survives_bearer;
                     [exact H
                     | rewrite rebuild_kwargs_headers; eauto]
                    | apply retry_carries_bearer])
              depth method endpoint data params files stream w HR)
    as [_ [new [Hlog HQ]]].
  rewrite (new_calls_app _ _ _ Hlog). exact HQ.
Qed.

(** A client built with the key [K-123] and the token [T1]. *)
Lemma api_key_and_bearer_both_sent_witness :
  let w := Scenario.start (Scenario.client (Some "K-123") (Some "T1")) in
  let w' := snd (_make_request Scenario.accepting 3 "GET" "/users/me"
                   None None None false w) in
  (exists rest,
      new_calls w w'
      = first_call (self w) "GET" "/users/me" None None None false :: rest) /\
  Forall
    (fun s =>
       x_api_key s = Some "K-123" /\
       (truthy (access_token (sent_self s)) = true ->
        authorization s
        = Some ("Bearer " ++ py_str (access_token (sent_self s)))))
    (new_calls w w').
Proof.
  apply (api_key_and_bearer_both_sent Scenario.accepting 2 "GET" "/users/me"
           None None None false
           (Scenario.start (Scenario.client (Some "K-123") (Some "T1")))
           Scenario.requests_default_headers "https://api.example.com/"
           "K-123" (Some "T1") 30 3 true).
  - discriminate.
  - reflexivity.
Defined.

(** C9, as stated, fails.  A client that holds both an API key and an
    access token does not let the bearer header take precedence: its
    request goes out with the [X-API-Key] header next to the
    [Authorization] header, and nothing in the client ranks one above the
    other. *)
Lemma api_key_sent_next_to_bearer :
  let w := Scenario.start (Scenario.client (Some "K-123") (Some "T1")) in
  let w' := snd (get_current_user Scenario.accepting 3 w) in
  map (fun s => (x_api_key s, authorization s)) (new_calls w w')
  = [(Some "K-123", Some "Bearer T1")] /\
  map effective_headers (new_calls w w')
  = [[("User-Agent", "ContractManagementSDK-Python/1.0.0");
      ("Accept-Encoding", "gzip, deflate");
      ("Accept", "*/*");
      ("Connection", "keep-alive");
      ("Content-Type", "application/json");
      ("X-API-Key", "K-123");
      ("Authorization", "Bearer T1")]].
Proof. vm_compute. split; reflexivity. Qed.

(** ** Bodies and query parameters *)

Lemma dict_get_absent (k : string) (d : list (string * pyval)) :
  dict_get k d = None <-> absent k d.
Proof.
  unfold absent. induction d as [ | [k' v] d IH]; simpl.
  - split; [intros _ [] | reflexivity].
  - destruct (k =? k')%string eqn:E.
    + apply String.eqb_eq in E. subst k'. split; [discriminate | ].
      intros H. exfalso. apply H. left. reflexivity.
    + apply String.eqb_neq in E. rewrite IH. split.
      * intros H [H1 | H1]; [apply E; symmetry; exact H1 | exact (H H1)].
      * intros H H1. apply H. right. exact H1.
Qed.


Lemma dict_get_set_other (k k' : string) (v : pyval)
  (d : list (string * pyval)) :
  (k =? k')%string = false ->
  dict_get k (dict_set k' v d) = dict_get k d.
Proof.
  intros D. induction d as [ | [k2 v2] d IH]; simpl.
  - rewrite D. reflexivity.
  - destruct (k' =? k2)%string eqn:E; simpl.
    + apply String.eqb_eq in E. subst k2. rewrite D. reflexivity.
    + destruct (k =? k2)%string; [reflexivity | exact IH].
Qed.

Lemma dict_get_set_if_truthy_other (k k' : string) (v : pyval)
  (d : list (string * pyval)) :
  (k =? k')%string = false ->
  dict_get k (set_if_truthy k' v d) = dict_get k d.
Proof.
  intros D. unfold set_if_truthy.
  destruct (truthy v); [apply dict_get_set_other; exact D | reflexivity].
Qed.

Lemma dict_get_set_if_not_None_other (k k' : string) (v : pyval)
  (d : list (string * pyval)) :
  (k =? k')%string = false ->
  dict_get k (set_if_not_None k' v d) = dict_get k d.
Proof.
  intros D. unfold set_if_not_None.
  destruct (is_not_None v); [apply dict_get_set_other; exact D | reflexivity].
Qed.



(** The text of a JSON object has one member per entry of the dict. *)
Lemma json_dumps_dict (d : list (string * pyval)) :
  json_dumps (PDict d) = "{" ++ join ", " (map json_member d) ++ "}".
Proof. reflexivity. Qed.

(** Lookups that skip the keys set later by a builder. *)
Ltac other_keys :=
  repeat first
    [ rewrite dict_get_set_if_truthy_other by reflexivity
    | rewrite dict_get_set_if_not_None_other by reflexivity ].

Lemma absent_set_if_truthy (k k' : string) (v : pyval)
  (d : list (string * pyval)) :
  (k =? k')%string = false -> absent k d -> absent k (set_if_truthy k' v d).
Proof.
  intros D H. apply dict_get_absent.
  rewrite dict_get_set_if_truthy_other by exact D.
  apply dict_get_absent. exact H.
Qed.

Lemma absent_set_if_not_None (k k' : string) (v : pyval)
  (d : list (string * pyval)) :
  (k =? k')%string = false -> absent k d -> absent k (set_if_not_None k' v d).
Proof.
  intros D H. apply dict_get_absent.
  rewrite dict_get_set_if_not_None_other by exact D.
  apply dict_get_absent. exact H.
Qed.

(** A builder leaves out the key of an omitted argument: the later steps
    set other keys, and its own step tests [None]. *)
Ltac absent_key :=
  repeat first
    [ apply absent_set_if_truthy; [reflexivity | ]
    | apply absent_set_if_not_None; [reflexivity | ]
    | progress change (set_if_truthy ?k PNone ?d) with d
    | progress change (set_if_not_None ?k PNone ?d) with d ];
  apply dict_get_absent; reflexivity.

(** C6. In [create_contract], an optional argument the caller omits does
    not appear in the body: its key is absent from the dict that is
    serialized (so it is not there with [null] either), and the body of
    the request sent is the JSON object with one member per entry of that
    dict.  In [update_contract] the body has one member per keyword
    argument passed and no other, so a field the caller did not pass is
    absent too. *)
Theorem omitted_optional_fields_absent
  (title type : pyval)
  (description value currency start_date end_date content parties
     metadata tags : option pyval)
  (contract_id : string) (kwargs : list (string * pyval))
  (transport : Transport) (depth : nat) (w : World) :
  (exists rest,
      new_calls w
        (snd (create_contract transport (S depth) title type description
                value currency start_date end_date content parties metadata
                tags w))
      = first_call (self w) "POST" "/contracts"
          (Some (create_contract_data title type description value currency
                   start_date end_date content parties metadata tags))
          None None false :: rest) /\
  body (first_call (self w) "POST" "/contracts"
          (Some (create_contract_data title type description value currency
                   start_date end_date content parties metadata tags))
          None None false)
  = Some ("{" ++ join ", "
                   (map json_member
                      (create_contract_data title type description value
                         currency start_date end_date content parties
                         metadata tags)) ++ "}") /\
  absent "description"
    (create_contract_data title type None value currency start_date
       end_date content parties metadata tags) /\
  absent "value"
    (create_contract_data title type description None currency start_date
       end_date content parties metadata tags) /\
  absent "currency"
    (create_contract_data title type description value None start_date
       end_date content parties metadata tags) /\
  absent "startDate"
    (create_contract_data title type description value currency None
       end_date content parties metadata tags) /\
  absent "endDate"
    (create_contract_data title type description value currency start_date
       None content parties metadata tags) /\
  absent "content"
    (create_contract_data title type description value currency start_date
       end_date None parties metadata tags) /\
  absent "parties"
    (create_contract_data title type description value currency start_date
       end_date content None metadata tags) /\
  absent "metadata"
    (create_contract_data title type description value currency start_date
       end_date content parties None tags) /\
  absent "tags"
    (create_contract_data title type description value currency start_date
       end_date content parties metadata None) /\
  (exists rest,
      new_calls w
        (snd (update_contract transport (S depth) contract_id kwargs w))
      = first_call (self w) "PUT" ("/contracts/" ++ contract_id)
          (Some kwargs) None None false :: rest) /\
  body (first_call (self w) "PUT" ("/contracts/" ++ contract_id)
          (Some kwargs) None None false)
  = Some ("{" ++ join ", " (map json_member kwargs) ++ "}") /\
  (forall k, dict_get k kwargs = None -> absent k kwargs).
Proof.
  split.
  { destruct (make_request_starts transport depth "POST" "/contracts"
                (Some (create_contract_data title type description value
                         currency start_date end_date content parties
                         metadata tags))
                None None false w) as [rest Hlog].
    exists rest. apply new_calls_app. exact Hlog. }
  split; [reflexivity | ].
  unfold create_contract_data, or_default.
  repeat (split; [absent_key | ]).
  split.
  { destruct (make_request_starts transport depth "PUT"
                ("/contracts/" ++ contract_id) (Some kwargs)
                None None false w) as [rest Hlog].
    exists rest. apply new_calls_app. exact Hlog. }
  split; [reflexivity | ].
  intros k. apply dict_get_absent.
Qed.

(** A contract created with a title, a type and a value only. *)
Lemma omitted_optional_fields_absent_witness :
  let data := create_contract_data (PStr "NDA") (PStr "nda") None
                (Some (PInt 0)) None None None None None None None in
  map fst data = ["title"; "type"; "value"] /\
  absent "description" data /\
  absent "tags" data /\
  absent "description" [("title", PStr "New")].
Proof.
  destruct (omitted_optional_fields_absent (PStr "NDA") (PStr "nda") None
              (Some (PInt 0)) None None None None None None None
              "c-17" [("title", PStr "New")] Scenario.accepting 2
              (Scenario.start (Scenario.logged_in "T1" "R1")))
    as (_ & _ & Hd & _ & _ & _ & _ & _ & _ & _ & Ht & _ & _ & Hk).
  split; [reflexivity | ].
  split; [exact Hd | ].
  split; [exact Ht | ].
  exact (Hk "description" eq_refl).
Defined.

Example create_contract_body_text :
  let w := Scenario.start (Scenario.logged_in "T1" "R1") in
  let run := create_contract Scenario.accepting 3 (PStr "NDA") (PStr "nda")
               None (Some (PInt 0)) None None None None None None None w in
  map body (new_calls w (snd run))
  = [Some ("{" ++ json_string "title" ++ ": " ++ json_string "NDA" ++ ", "
               ++ json_string "type" ++ ": " ++ json_string "nda" ++ ", "
               ++ json_string "value" ++ ": 0}")].
Proof. reflexivity. Qed.

Example update_contract_body_text :
  let w := Scenario.start (Scenario.logged_in "T1" "R1") in
  let run := update_contract Scenario.accepting 3 "c-17"
               [("title", PStr "New"); ("description", PNone)] w in
  map body (new_calls w (snd run))
  = [Some ("{" ++ json_string "title" ++ ": " ++ json_string "New" ++ ", "
               ++ json_string "description" ++ ": null}")].
Proof. reflexivity. Qed.





(** The first call of a wrapper method is the first call of the request it
    delegates to [_make_request]. *)
Ltac sends_what_it_builds :=
  cbv zeta;
  match goal with
  | |- exists call rest,
        new_calls ?w (snd (_make_request ?t (S ?d) ?m ?e ?data ?p ?f ?s ?w))
        = call :: rest /\ _ =>
      let rest := fresh "rest" in
      let H := fresh "H" in
      destruct (make_request_starts t d m e data p f s w) as [rest H];
      eexists; exists rest;
      split; [apply new_calls_app; exact H | reflexivity]
  end.


(** ** Error translation *)

(** What [_handle_error] raises, for every response handed to it. *)
Lemma handle_error_spec {A} (r : Response) (w : World) :
  exists cls message code details,
    @_handle_error A r w
    = (Raise (SDKError cls message code (PInt (status_code r)) details), w) /\
    (cls = AuthenticationError <-> status_code r = 401) /\
    (cls = ValidationError <-> status_code r = 400) /\
    (cls = APIError <-> status_code r <> 401 /\ status_code r <> 400) /\
    (forall d, json r = JsonValue (PDict d) ->
       message = dict_get_default "message" (PStr "An error occurred") d /\
       code = dict_get_default "code" (PStr "UNKNOWN_ERROR") d /\
       details = dict_get_default "details" PNone d) /\
    ((forall d, json r <> JsonValue (PDict d)) ->
       message = PStr ("HTTP " ++ str_of_Z (status_code r) ++ ": " ++ text r) /\
       code = PStr ("HTTP_" ++ str_of_Z (status_code r)) /\
       details = PNone).
Proof.
  unfold _handle_error.
  set (fields := match json r with
                 | JsonValue (PDict error_data) => _
                 | _ => _
                 end).
  assert (F :
    (forall d, json r = JsonValue (PDict d) ->
       fields = (dict_get_default "message" (PStr "An error occurred") d,
                 dict_get_default "code" (PStr "UNKNOWN_ERROR") d,
                 dict_get_default "details" PNone d)) /\
    ((forall d, json r <> JsonValue (PDict d)) ->
       fields = (PStr ("HTTP " ++ str_of_Z (status_code r) ++ ": " ++ text r),
                 PStr ("HTTP_" ++ str_of_Z (status_code r)), PNone))).
  { subst fields. split.
    - intros d E. rewrite E. reflexivity.
    - intros N. destruct (json r) as [[ | | | | | d] | msg]; try reflexivity.
      exfalso. exact (N d eq_refl). }
  destruct fields as [[message code] details]. destruct F as [F1 F2].
  exists (if status_code r =? 401 then AuthenticationError
          else if status_code r =? 400 then ValidationError else APIError),
         message, code, details.
  split; [ | split; [ | split; [ | split; [ | split]]]].
  - destruct (status_code r =? 401); [reflexivity | ].
    destruct (status_code r =? 400); reflexivity.
  - destruct (status_code r =? 401) eqn:E1; [ | destruct (status_code r =? 400) eqn:E0].
    + split; [intros _; lia | reflexivity].
    + split; [discriminate | lia].
    + split; [discriminate | lia].
  - destruct (status_code r =? 401) eqn:E1; [ | destruct (status_code r =? 400) eqn:E0].
    + split; [discriminate | lia].
    + split; [intros _; lia | reflexivity].
    + split; [discriminate | lia].
  - destruct (status_code r =? 401) eqn:E1; [ | destruct (status_code r =? 400) eqn:E0].
    + split; [discriminate | lia].
    + split; [discriminate | lia].
    + split; [intros _; lia | reflexivity].
  - intros d E. specialize (F1 d E). injection F1 as -> -> ->. auto.
  - intros N. specialize (F2 N). injection F2 as -> -> ->. auto.
Qed.

Lemma handle_error_is_raise {A} (r : Response) :
  exists e, forall w, @_handle_error A r w = (Raise e, w).
Proof.
  unfold _handle_error.
  destruct (json r) as [[ | | | | | dd] | msg];
    destruct (status_code r =? 401); try destruct (status_code r =? 400);
    eexists; intros w; reflexivity.
Qed.

(** A request whose first response is rejected, and is not a 401 that
    starts a refresh, raises what [_handle_error] makes of it. *)
Lemma make_request_rejected (transport : Transport) (depth : nat)
  method endpoint data params files stream (w : World) (r : Response) :
  transport (log w) (first_call (self w) method endpoint data params files stream)
  = Responded r ->
  is_http_error r = true ->
  (status_code r =? 401) && truthy (refresh_token (self w)) = false ->
  fst (_make_request transport (S depth) method endpoint data params files
         stream w)
  = fst (@_handle_error ReqResult r w).
Proof.
  intros H1 H2 H3. rewrite make_request_unfold.
  unfold try_except, bind at 1, session_request. unfold first_call in H1.
  rewrite H1. unfold after_first_response, bind, get_self. simpl.
  rewrite H3. unfold ret, finish_response, bind, raise_for_status.
  rewrite H2. simpl.
  destruct (handle_error_is_raise (A := ReqResult) r) as [e He].
  rewrite !He. reflexivity.
Qed.

(** ** What a request can raise *)


















Example bad_gateway_is_api_error :
  fst (get_current_user (Scenario.always Scenario.bad_gateway) 3
         (Scenario.start (Scenario.client None None)))
  = Raise (SDKError APIError
             (PStr "HTTP 502: <html>Bad Gateway</html>") (PStr "HTTP_502")
             (PInt 502) PNone).
Proof. reflexivity. Qed.


(** ** Refresh and retry *)

(** A request whose first response does not start a refresh: one call,
    then the end of the pipeline on its response. *)
Lemma make_request_plain (transport : Transport) (depth : nat)
  method endpoint data params files stream (w : World) :
  (forall r,
      transport (log w)
        (first_call (self w) method endpoint data params files stream)
      = Responded r ->
      (status_code r =? 401) && truthy (refresh_token (self w)) = false) ->
  _make_request transport (S depth) method endpoint data params files stream w
  = let w1 := mkWorld (self w)
                (log w ++ [first_call (self w) method endpoint data params
                             files stream])%list in
    match transport (log w)
            (first_call (self w) method endpoint data params files stream)
    with
    | Responded r => try_except (finish_response stream r) request_handlers w1
    | Failed f => request_handlers (RequestsFailure f) w1
    end.
Proof.
  intros H. rewrite make_request_unfold.
  unfold try_except at 1, bind at 1, session_request. unfold first_call in *.
  destruct (transport (log w) _) as [r | f]; [ | reflexivity].
  unfold after_first_response, bind at 1, get_self. cbn [self fst snd].
  unfold bind at 1. rewrite (H r eq_refl). unfold ret at 1.
  reflexivity.
Qed.









(** The retry repeats the method, the URL, the parameters and the JSON text
    of the original request, and computes the bearer header again.  A file
    payload is not opened again: its parts are given under the same names,
    read to their end. *)
Lemma retry_repeats_first (c0 c : Client) method endpoint data params files
  stream :
  sent_method (retry_call c0 c method endpoint data params files stream)
  = sent_method (first_call c0 method endpoint data params files stream) /\
  sent_url (retry_call c0 c method endpoint data params files stream)
  = sent_url (first_call c0 method endpoint data params files stream) /\
  body (retry_call c0 c method endpoint data params files stream)
  = body (first_call c0 method endpoint data params files stream) /\
  kw_params (sent_kwargs (retry_call c0 c method endpoint data params files stream))
  = kw_params (sent_kwargs (first_call c0 method endpoint data params files stream)) /\
  kw_files (sent_kwargs (retry_call c0 c method endpoint data params files stream))
  = option_map (map (fun kp => (fst kp, read_to_end (snd kp))))
      (kw_files (sent_kwargs (first_call c0 method endpoint data params files
                                stream))) /\
  is_refresh_call (retry_call c0 c method endpoint data params files stream)
  = is_refresh_call (first_call c0 method endpoint data params files stream).
Proof. repeat split. Qed.

(** The file parts of a retry have nothing left to send. *)
Lemma retry_files_are_read (c0 c : Client) method endpoint data params files
  stream (parts : list (string * FilePart)) (k : string) (p : FilePart) :
  kw_files (sent_kwargs (retry_call c0 c method endpoint data params files
                           stream)) = Some parts ->
  In (k, p) parts -> part_content p = "".
Proof.
  unfold retry_call, rebuild_kwargs, with_headers, after_send.
  cbn [sent_kwargs kw_files].
  destruct (kw_files (build_kwargs c0 data params files stream)) as [l | ];
    cbn [option_map]; [ | discriminate].
  intros E H. injection E as <-.
  apply in_map_iff in H. destruct H as [[k' p'] [H _]].
  injection H as _ <-. reflexivity.
Qed.




(** The retry of an upload.  [upload_attachment] opens the file once and
    [_make_request] passes the same [kwargs] to both calls, so the retry is
    given the file object that the first call has read to its end: the part
    [file] is sent again under its name, with nothing in it, and the server
    that accepts it has received an empty attachment. *)
Example upload_retry_sends_an_empty_file :
  let fs := fun p => if (p =? "/tmp/scan/nda.pdf")%string
                     then Some "%PDF-1.7" else None in
  let w := Scenario.start (Scenario.logged_in "T1" "R1") in
  let run := upload_attachment Scenario.expired_then_renewed fs 5 "c-17"
               "/tmp/scan/nda.pdf" None w in
  map (fun s => (Scenario.summary s, kw_files (sent_kwargs s)))
      (new_calls w (snd run))
  = [(("POST", "/contracts/c-17/attachments", Some "Bearer T1"),
      Some [("file", mkFilePart "nda.pdf" "%PDF-1.7")]);
     (("POST", "/auth/refresh", Some "Bearer T1"), None);
     (("POST", "/contracts/c-17/attachments", Some "Bearer T2"),
      Some [("file", mkFilePart "nda.pdf" "")])] /\
  fst run = Return (Parsed (PDict [("id", PStr "u-1")])).
Proof. vm_compute. repeat split. Qed.

(** Outside the theorem above: a token endpoint that answers 401.  The
    refresh call is itself a request of a client that holds a refresh
    token, so its 401 starts another refresh, from inside the first one.
    Refused once, the endpoint is called three times for one request, the
    last time with the refresh token that was already exchanged. *)
Example refresh_refused_once_refreshes_thrice :
  let w := Scenario.start (Scenario.logged_in "T1" "R1") in
  let run := get_current_user Scenario.refresh_refused_once 5 w in
  map Scenario.summary (new_calls w (snd run))
  = [("GET", "/users/me", Some "Bearer T1");
     ("POST", "/auth/refresh", Some "Bearer T1");
     ("POST", "/auth/refresh", Some "Bearer T1");
     ("POST", "/auth/refresh", Some "Bearer T2");
     ("GET", "/users/me", Some "Bearer T3")] /\
  length (filter is_refresh_call (new_calls w (snd run))) = 3%nat /\
  access_token (self (snd run)) = PStr "T3" /\
  refresh_token (self (snd run)) = PStr "R3" /\
  fst run = Return (Parsed (PDict [("id", PStr "u-1")])).
Proof. vm_compute. repeat split. Qed.

(** Refused every time, the refresh nests until the interpreter gives up:
    with room for five nested requests, four refresh calls are made and
    the caller gets a [RecursionError]. *)
Example refresh_refused_always_recurses :
  let w := Scenario.start (Scenario.logged_in "T1" "R1") in
  let run := get_current_user Scenario.always_unauthorized 5 w in
  length (filter is_refresh_call (new_calls w (snd run))) = 4%nat /\
  fst run = Raise RecursionError.
Proof. vm_compute. repeat split. Qed.

(** ** The token pair *)

(** C2 fails on the code.  A login answered with a body that has
    [accessToken] but no [refreshToken] leaves the client with the new
    access token next to the old refresh token: [login] assigns the first
    field before it looks up the second, and the lookup raises
    [KeyError].  The refresh exchange does the same. *)
Theorem login_updates_one_token_only :
  let w := Scenario.start (Scenario.logged_in "T1" "R1") in
  let after_login :=
    login Scenario.login_without_refresh_token 5 (PStr "a@b.com") (PStr "pw")
          None w in
  let after_refresh :=
    _refresh_access_token Scenario.login_without_refresh_token 5 w in
  fst after_login = Raise (KeyError "refreshToken") /\
  access_token (self (snd after_login)) = PStr "T2" /\
  refresh_token (self (snd after_login)) = PStr "R1" /\
  fst after_refresh = Raise (KeyError "refreshToken") /\
  access_token (self (snd after_refresh)) = PStr "T2" /\
  refresh_token (self (snd after_refresh)) = PStr "R1".
Proof. vm_compute. repeat split. Qed.

(** When the answer has both fields, the pair is replaced as a whole. *)
Lemma login_replaces_both_tokens (transport : Transport) (depth : nat)
  (email password : pyval) (two_factor_code : option pyval) (w w1 : World)
  (d : list (string * pyval)) (a rt : pyval) :
  _make_request transport depth "POST" "/auth/login"
    (Some (login_data email password two_factor_code)) None None false w
  = (Return (Parsed (PDict d)), w1) ->
  dict_get "accessToken" d = Some a ->
  dict_get "refreshToken" d = Some rt ->
  login transport depth email password two_factor_code w
  = (Return (Parsed (PDict d)),
     mkWorld (set_refresh_token rt (set_access_token a (self w1))) (log w1)).
Proof.
  intros E Ha Hr. unfold login, bind. rewrite E.
  cbn [subscript]. rewrite Ha. cbn [ret modify_self self log].
  rewrite Hr. reflexivity.
Qed.

(** When the answer has [accessToken] only, the access token alone is
    replaced, whatever the tokens and the answer are. *)
Lemma login_without_refresh_field (transport : Transport) (depth : nat)
  (email password : pyval) (two_factor_code : option pyval) (w w1 : World)
  (d : list (string * pyval)) (a : pyval) :
  _make_request transport depth "POST" "/auth/login"
    (Some (login_data email password two_factor_code)) None None false w
  = (Return (Parsed (PDict d)), w1) ->
  dict_get "accessToken" d = Some a ->
  dict_get "refreshToken" d = None ->
  login transport depth email password two_factor_code w
  = (Raise (KeyError "refreshToken"),
     mkWorld (set_access_token a (self w1)) (log w1)) /\
  refresh_token (set_access_token a (self w1)) = refresh_token (self w1).
Proof.
  intros E Ha Hr. split; [ | reflexivity]. unfold login, bind. rewrite E.
  cbn [subscript]. rewrite Ha. cbn [ret modify_self self log].
  rewrite Hr. reflexivity.
Qed.


(** * Further properties of the pipeline *)

(** ** Requests that do not refresh *)

(** Such a request adds its one call to the log and changes nothing else. *)
Lemma plain_request_world (transport : Transport) (depth : nat)
  method endpoint data params files stream (w : World) :
  (forall r,
      transport (log w)
        (first_call (self w) method endpoint data params files stream)
      = Responded r ->
      (status_code r =? 401) && truthy (refresh_token (self w)) = false) ->
  snd (_make_request transport (S depth) method endpoint data params files
         stream w)
  = mkWorld (self w)
      (log w ++ [first_call (self w) method endpoint data params files
                   stream])%list.
Proof.
  intros H. rewrite (make_request_plain _ _ _ _ _ _ _ _ _ H). cbv zeta.
  destruct (transport (log w) _) as [r | f].
  - unfold try_except.
    match goal with
    | |- snd (let (o, w') := finish_response ?s ?r ?w0 in _) = _ =>
        pose proof (finish_response_world s r w0) as FW;
        destruct (finish_response s r w0) as [[v | e] w3]
    end; cbn [snd] in *; [exact FW | ].
    rewrite request_handlers_world. exact FW.
  - apply request_handlers_world.
Qed.

Lemma new_calls_one (w : World) (c : Client) (s : Sent) :
  new_calls w (mkWorld c (log w ++ [s])%list) = [s].
Proof. apply new_calls_app. reflexivity. Qed.

(** X1. A request whose first response is not a 401 met with a refresh
    token (any other response, or no response at all) makes exactly one
    call and leaves the client object as it was: nothing is retried and
    no token changes. *)
Theorem request_without_refresh_is_one_call (transport : Transport)
  (depth : nat) (method endpoint : string)
  (data params : option (list (string * pyval)))
  (files : option (list (string * FilePart))) (stream : bool) (w : World) :
  (forall r,
      transport (log w)
        (first_call (self w) method endpoint data params files stream)
      = Responded r ->
      status_code r = 401 -> truthy (refresh_token (self w)) = false) ->
  new_calls w
    (snd (_make_request transport (S depth) method endpoint data params
            files stream w))
  = [first_call (self w) method endpoint data params files stream] /\
  self (snd (_make_request transport (S depth) method endpoint data params
               files stream w))
  = self w.
Proof.
  intros H. rewrite plain_request_world.
  - split; [apply new_calls_one | reflexivity].
  - intros r E. destruct (status_code r =? 401) eqn:S; [ | reflexivity].
    cbn [andb]. apply (H r E). lia.
Qed.

(** A server in trouble answers 503; the client holds a refresh token, and
    still makes one call only. *)
Lemma request_without_refresh_is_one_call_witness :
  let w := Scenario.start (Scenario.logged_in "T1" "R1") in
  let run := _make_request (Scenario.always (Scenario.empty_response 503)) 3
               "GET" "/contracts" None None None false w in
  new_calls w (snd run)
  = [first_call (self w) "GET" "/contracts" None None None false] /\
  self (snd run) = self w.
Proof.
  apply (request_without_refresh_is_one_call
           (Scenario.always (Scenario.empty_response 503)) 2 "GET"
           "/contracts" None None None false
           (Scenario.start (Scenario.logged_in "T1" "R1"))).
  intros r E S. vm_compute in E. injection E as <-.
  vm_compute in S. discriminate S.
Defined.

(** X2. When the network gives no response to the first call, the caller
    gets an SDK error without code, status or details: [NetworkError] with
    the text [Connection error: ...] or [Request timeout: ...] for a
    connection failure or a timeout, plain [APIError] with
    [Request failed: ...] for any other failure of [requests].  The call is
    not repeated and the client object is unchanged, also when a refresh
    token is held. *)
Theorem network_failure_becomes_sdk_error (transport : Transport)
  (depth : nat) (method endpoint : string)
  (data params : option (list (string * pyval)))
  (files : option (list (string * FilePart))) (stream : bool) (w : World)
  (f : TransportFailure) :
  transport (log w)
    (first_call (self w) method endpoint data params files stream)
  = Failed f ->
  _make_request transport (S depth) method endpoint data params files stream w
  = (Raise
       (match f with
        | ConnectionError msg =>
            SDKError NetworkError (PStr ("Connection error: " ++ msg))
                     PNone PNone PNone
        | Timeout msg =>
            SDKError NetworkError (PStr ("Request timeout: " ++ msg))
                     PNone PNone PNone
        | OtherRequestException msg =>
            SDKError APIError (PStr ("Request failed: " ++ msg))
                     PNone PNone PNone
        end),
     mkWorld (self w)
       (log w ++ [first_call (self w) method endpoint data params files
                    stream])%list).
Proof.
  intros H. rewrite make_request_plain.
  - cbv zeta. rewrite H. destruct f; reflexivity.
  - intros r E. rewrite H in E. discriminate E.
Qed.

Lemma network_failure_becomes_sdk_error_witness :
  let w := Scenario.start (Scenario.logged_in "T1" "R1") in
  _make_request Scenario.unreachable 3 "GET" "/contracts" None None None
    false w
  = (Raise (SDKError NetworkError
              (PStr "Connection error: Connection refused") PNone PNone PNone),
     mkWorld (self w)
       (log w ++ [first_call (self w) "GET" "/contracts" None None None
                    false])%list).
Proof.
  apply (network_failure_becomes_sdk_error Scenario.unreachable 2 "GET"
           "/contracts" None None None false
           (Scenario.start (Scenario.logged_in "T1" "R1"))
           (ConnectionError "Connection refused")).
  reflexivity.
Defined.

(** X3. A 401 met without a refresh token is final at once: the caller
    gets an [AuthenticationError] carrying status 401, after one call, and
    the client object is unchanged. *)
Theorem unauthorized_without_refresh_token (transport : Transport)
  (depth : nat) (method endpoint : string)
  (data params : option (list (string * pyval)))
  (files : option (list (string * FilePart))) (stream : bool) (w : World)
  (r : Response) :
  transport (log w)
    (first_call (self w) method endpoint data params files stream)
  = Responded r ->
  status_code r = 401 ->
  truthy (refresh_token (self w)) = false ->
  (exists message code details,
      fst (_make_request transport (S depth) method endpoint data params
             files stream w)
      = Raise (SDKError AuthenticationError message code (PInt 401) details)) /\
  snd (_make_request transport (S depth) method endpoint data params files
         stream w)
  = mkWorld (self w)
      (log w ++ [first_call (self w) method endpoint data params files
                   stream])%list.
Proof.
  intros H S T.
  assert (C : forall r0,
             transport (log w)
               (first_call (self w) method endpoint data params files stream)
             = Responded r0 ->
             (status_code r0 =? 401) && truthy (refresh_token (self w)) = false).
  { intros r0 _. rewrite T. apply andb_false_r. }
  split; [ | apply plain_request_world; exact C].
  rewrite (make_request_rejected transport depth method endpoint data params
             files stream w r H).
  - destruct (handle_error_spec (A := ReqResult) r w)
      as (cls & m & c & d & E & Ha & _).
    rewrite E. cbn [fst]. exists m, c, d.
    rewrite (proj2 Ha S), S. reflexivity.
  - unfold is_http_error. rewrite S. reflexivity.
  - exact (C r H).
Qed.

Lemma unauthorized_without_refresh_token_witness :
  let w := Scenario.start (Scenario.client None (Some "T1")) in
  fst (_make_request Scenario.always_unauthorized 3 "GET" "/users/me" None
         None None false w)
  = Raise (SDKError AuthenticationError (PStr "Unauthorized")
             (PStr "UNKNOWN_ERROR") (PInt 401) PNone).
Proof.
  destruct (unauthorized_without_refresh_token Scenario.always_unauthorized 2
              "GET" "/users/me" None None None false
              (Scenario.start (Scenario.client None (Some "T1")))
              (Scenario.json_response 401
                 (PDict [("message", PStr "Unauthorized")]))
              eq_refl eq_refl eq_refl)
    as [(m & c & d & E) _].
  cbv zeta. rewrite E. vm_compute in E. injection E as <- <- <-. reflexivity.
Defined.

(** X4. What comes back from an accepted response (one that
    [raise_for_status] lets through): with [stream] set, the response
    itself, whatever its body; otherwise [None] for an empty body, which is
    never decoded, and the decoded JSON value for any other body. *)
Theorem accepted_response_result (transport : Transport)
  (depth : nat) (method endpoint : string)
  (data params : option (list (string * pyval)))
  (files : option (list (string * FilePart))) (stream : bool) (w : World)
  (r : Response) :
  transport (log w)
    (first_call (self w) method endpoint data params files stream)
  = Responded r ->
  is_http_error r = false ->
  (stream = true ->
   fst (_make_request transport (S depth) method endpoint data params files
          stream w) = Return (Stream r)) /\
  (stream = false -> has_content r = false ->
   fst (_make_request transport (S depth) method endpoint data params files
          stream w) = Return (Parsed PNone)) /\
  (forall v, stream = false -> has_content r = true -> json r = JsonValue v ->
   fst (_make_request transport (S depth) method endpoint data params files
          stream w) = Return (Parsed v)).
Proof.
  intros H A.
  assert (C : forall r0,
             transport (log w)
               (first_call (self w) method endpoint data params files stream)
             = Responded r0 ->
             (status_code r0 =? 401) && truthy (refresh_token (self w)) = false).
  { intros r0 E. rewrite H in E. injection E as <-.
    destruct (status_code r =? 401) eqn:S; [ | reflexivity].
    unfold is_http_error in A. apply Z.eqb_eq in S. rewrite S in A.
    discriminate A. }
  rewrite (make_request_plain _ _ _ _ _ _ _ _ _ C). cbv zeta. rewrite H.
  unfold try_except, finish_response, raise_for_status, bind.
  rewrite A. cbn [ret fst snd].
  split; [intros ->; reflexivity | ].
  split.
  - intros -> ->. reflexivity.
  - intros v -> -> J. unfold response_json. rewrite J. reflexivity.
Qed.

Lemma accepted_response_result_witness :
  let w := Scenario.start (Scenario.logged_in "T1" "R1") in
  fst (_make_request (Scenario.always (Scenario.empty_response 204)) 3
         "DELETE" "/contracts/c-17" None None None false w)
  = Return (Parsed PNone).
Proof.
  exact (proj1 (proj2
           (accepted_response_result
              (Scenario.always (Scenario.empty_response 204)) 2 "DELETE"
              "/contracts/c-17" None None None false
              (Scenario.start (Scenario.logged_in "T1" "R1"))
              (Scenario.empty_response 204) eq_refl eq_refl))
           eq_refl eq_refl).
Defined.

(** ** Login, logout and what follows *)

(** X5. A [login] that returns has stored the pair of its response: the
    response is a JSON object with both token fields, the client holds
    exactly these two tokens afterwards, the value returned is the
    response as [_make_request] gave it, and every request made next
    carries the new access token as bearer. *)
Theorem successful_login_stores_pair (transport : Transport) (depth : nat)
  (email password : pyval) (two_factor_code : option pyval)
  (w w1 : World) (response : ReqResult) :
  login transport depth email password two_factor_code w
  = (Return response, w1) ->
  exists d a rt w0,
    _make_request transport depth "POST" "/auth/login"
      (Some (login_data email password two_factor_code)) None None false w
    = (Return response, w0) /\
    response = Parsed (PDict d) /\
    dict_get "accessToken" d = Some a /\
    dict_get "refreshToken" d = Some rt /\
    self w1 = set_refresh_token rt (set_access_token a (self w0)) /\
    log w1 = log w0 /\
    (truthy a = true ->
     forall method endpoint data params files stream,
       authorization (first_call (self w1) method endpoint data params files
                        stream)
       = Some ("Bearer " ++ py_str a)).
Proof.
  intros H. unfold login, bind in H.
  destruct (_make_request transport depth "POST" "/auth/login" _ None None
              false w) as [[resp | e] w0]; [ | discriminate H].
  destruct resp as [[ | b | z | s | l | d] | r]; cbn [subscript raise] in H;
    try discriminate H.
  destruct (dict_get "accessToken" d) as [a | ] eqn:Ea;
    cbn [ret raise modify_self self log] in H; [ | discriminate H].
  destruct (dict_get "refreshToken" d) as [rt | ] eqn:Er;
    cbn [ret raise modify_self self log] in H; [ | discriminate H].
  injection H as <- <-.
  exists d, a, rt, w0. repeat split; try reflexivity; try assumption.
  intros T method endpoint data params files stream.
  apply (first_call_carries_bearer
           (set_refresh_token rt (set_access_token a (self w0)))).
  exact T.
Qed.

Lemma successful_login_stores_pair_witness :
  let w := Scenario.start (Scenario.client None None) in
  let run := login (Scenario.always
                      (Scenario.json_response 200
                         (PDict [("accessToken", PStr "T1");
                                 ("refreshToken", PStr "R1");
                                 ("user", PDict [("id", PStr "u-1")])])))
               3 (PStr "a@b.com") (PStr "pw") None w in
  access_token (self (snd run)) = PStr "T1" /\
  refresh_token (self (snd run)) = PStr "R1" /\
  authorization (first_call (self (snd run)) "GET" "/users/me" None None None
                   false)
  = Some "Bearer T1".
Proof.
  intros w run.
  destruct (successful_login_stores_pair _ _ _ _ _ w (snd run)
              (Parsed (PDict [("accessToken", PStr "T1");
                              ("refreshToken", PStr "R1");
                              ("user", PDict [("id", PStr "u-1")])]))
              (eq_refl : run = _))
    as (d & a & rt & w0 & E0 & Ed & Ea & Er & Es & _ & Hb).
  injection Ed as <-. vm_compute in Ea, Er.
  injection Ea as <-. injection Er as <-.
  rewrite (Hb eq_refl), Es. repeat split.
Defined.

(** ** What a request never changes *)

Lemma same_settings_refl (c : Client) : same_settings c c.
Proof. repeat split. Qed.

(** X6. A request, at any depth and whatever the network answers, changes
    nothing of the client object but its tokens: base URL, API key,
    timeout, TLS flag and session stay as they were.  Every call it makes,
    the refresh calls and the retry included, goes out with that timeout,
    that TLS flag and that session. *)
Theorem request_keeps_settings (transport : Transport) (depth : nat)
  (method endpoint : string) (data params : option (list (string * pyval)))
  (files : option (list (string * FilePart))) (stream : bool) (w : World) :
  same_settings (self w)
    (self (snd (_make_request transport depth method endpoint data params
                  files stream w))) /\
  Forall (sent_with_settings (self w))
    (new_calls w
       (snd (_make_request transport depth method endpoint data params files
               stream w))).
Proof.
  destruct (keeps_make_request (same_settings (self w))
              (sent_with_settings (self w))
              ltac:(intros c v H; exact H) ltac:(intros c v H; exact H)
              transport
              ltac:(intros c m e d p f s H; split; [exact H | ];
                    destruct H as (_ & _ & Ht & Hv & _); split;
                    [exact Ht | exact Hv])
              ltac:(intros c0 c m e d p f s H0 H; split; [exact H | ];
                    destruct H0 as (_ & _ & Ht & Hv & _); split;
                    [exact Ht | exact Hv])
              depth method endpoint data params files stream w
              (same_settings_refl (self w)))
    as [HR [new [Hlog HQ]]].
  split; [exact HR | ].
  rewrite (new_calls_app _ _ _ Hlog). exact HQ.
Qed.

(** ** Where the calls go *)

Lemma keeps_weaken (R : Client -> Prop) (Q Q' : Sent -> Prop) {A} (m : M A) :
  (forall s, Q s -> Q' s) -> keeps R Q m -> keeps R Q' m.
Proof.
  intros HQ Hm w HR. destruct (Hm w HR) as [HR' [new [Hlog HF]]].
  split; [exact HR' | ]. exists new. split; [exact Hlog | ].
  eapply Forall_impl; [exact HQ | exact HF].
Qed.

(** The refresh exchange only needs its own call of [_make_request]. *)
Lemma keeps_refresh_call (R : Client -> Prop) (Q : Sent -> Prop)
  (make_request : MakeRequest) :
  (forall c v, R c -> R (set_access_token v c)) ->
  (forall c v, R c -> R (set_refresh_token v c)) ->
  (forall data,
      keeps R Q (make_request "POST" "/auth/refresh" data None None false)) ->
  keeps R Q (refresh_access_token_with make_request).
Proof.
  intros Ra Rr Hmk. unfold refresh_access_token_with.
  apply keeps_bind; [apply keeps_get_self | intros c].
  destruct (negb (truthy (refresh_token c))); [apply keeps_raise | ].
  apply keeps_bind; [apply Hmk | intros data].
  apply keeps_bind; [apply keeps_subscript | intros a].
  apply keeps_bind; [apply keeps_modify_self; intros; apply Ra; assumption | intros _].
  apply keeps_bind; [apply keeps_subscript | intros r].
  apply keeps_modify_self; intros; apply Rr; assumption.
Qed.

Lemma keeps_targets (transport : Transport) (base : string) (depth : nat) :
  forall method endpoint data params files stream,
    keeps (fun c => base_url c = base) (targets base method endpoint)
      (_make_request transport depth method endpoint data params files stream).
Proof.
  induction depth as [ | depth IH]; intros method endpoint data params files stream.
  - apply keeps_raise.
  - intros w HR. eapply good_eq; [apply make_request_unfold | ].
    apply good_try_except; [ | intros e; apply keeps_request_handlers].
    apply good_bind.
    + unfold good, session_request.
      destruct (transport (log w) _); simpl;
        (split; [exact HR | ]; eexists; split;
         [reflexivity
         | constructor; [left; rewrite HR; split; reflexivity | constructor]]).
    + intros response. unfold after_first_response.
      apply keeps_bind; [apply keeps_get_self | intros c].
      apply keeps_bind; [ | intros r; apply keeps_finish_response].
      destruct ((status_code response =? 401) && truthy (refresh_token c)).
      * apply keeps_bind.
        -- apply keeps_refresh_call;
             [intros c0 v H; exact H | intros c0 v H; exact H | ].
           intros data0.
           apply (keeps_weaken _ (targets base "POST" "/auth/refresh"));
             [ | apply IH].
           intros s [H | H]; right; exact H.
        -- intros _.
           apply (keeps_session_request _ _ transport method
                    (urljoin (base_url (self w)) endpoint)
                    (fun c => rebuild_kwargs c
                       (build_kwargs (self w) data params files stream))).
           intros c' _. left. rewrite HR. split; reflexivity.
      * apply keeps_ret.
Qed.

(** X7. A request only ever talks to two places: every call it makes, at
    any depth and whatever the network answers, is either the request
    itself (its method, its endpoint joined to the base URL of the client)
    or a POST to the token endpoint [/auth/refresh] of the same base
    URL. *)
Theorem request_calls_endpoint_or_refresh (transport : Transport)
  (depth : nat) (method endpoint : string)
  (data params : option (list (string * pyval)))
  (files : option (list (string * FilePart))) (stream : bool) (w : World) :
  Forall (targets (base_url (self w)) method endpoint)
    (new_calls w
       (snd (_make_request transport depth method endpoint data params files
               stream w))).
Proof.
  destruct (keeps_targets transport (base_url (self w)) depth method endpoint
              data params files stream w eq_refl)
    as [_ [new [Hlog HQ]]].
  rewrite (new_calls_app _ _ _ Hlog). exact HQ.
Qed.

(** ** After logout *)

Lemma logout_same_settings (transport : Transport) (depth : nat) (w : World) :
  same_settings (self w) (self (snd (logout transport depth w))).
Proof.
  assert (K : keeps (same_settings (self w)) (fun _ => True)
                (logout transport depth)).
  { unfold logout. apply keeps_try_finally.
    - apply keeps_bind; [ | intros a; apply keeps_ret].
      apply keeps_make_request; auto.
    - apply keeps_bind; [ | intros _];
        apply keeps_modify_self; intros c H; exact H. }
  exact (proj1 (K w (same_settings_refl (self w)))).
Qed.

(** X8. Whatever happened during [logout], the client is anonymous
    afterwards: its next request makes a single call (there is no refresh
    token left to refresh with), that call has no header of its own, so it
    carries no bearer token, and it still carries the API key of the
    session when there is one. *)
Theorem request_after_logout_is_anonymous (transport next : Transport)
  (depth depth' : nat) (method endpoint : string)
  (data params : option (list (string * pyval)))
  (files : option (list (string * FilePart))) (stream : bool) (w : World) :
  let w1 := snd (logout transport depth w) in
  let call := first_call (self w1) method endpoint data params files stream in
  new_calls w1
    (snd (_make_request next (S depth') method endpoint data params files
            stream w1)) = [call] /\
  kw_headers (sent_kwargs call) = [] /\
  authorization call = hdr_get "Authorization" (headers (session (self w))) /\
  x_api_key call = hdr_get "X-API-Key" (headers (session (self w))).
Proof.
  intros w1 call.
  destruct (logout_final_tokens transport depth w) as [Ta Tr].
  destruct (logout_same_settings transport depth w) as (_ & _ & _ & _ & Hs).
  fold w1 in Ta, Tr, Hs.
  split.
  { rewrite plain_request_world.
    - apply new_calls_one.
    - intros r _. rewrite Tr. apply andb_false_r. }
  assert (E : kw_headers (sent_kwargs call) = []).
  { unfold call, first_call. cbn [sent_kwargs].
    rewrite build_kwargs_headers, Ta. reflexivity. }
  split; [exact E | ].
  unfold authorization, x_api_key, effective_headers.
  rewrite E. unfold call, first_call. cbn [sent_self hdr_update fold_left].
  rewrite Hs. split; reflexivity.
Qed.

(** ** Construction *)

Lemma rstrip_slash_spec (s : string) :
  ends_with "/" (rstrip_slash s) = false /\
  exists k, s = rstrip_slash s ++ slashes k.
Proof.
  induction s as [ | c s [IHe [k IHk]]]; simpl.
  - split; [reflexivity | exists 0%nat; reflexivity].
  - destruct (rstrip_slash s) as [ | a t] eqn:E.
    + simpl in IHk. destruct (Ascii.eqb c "/") eqn:C.
      * split; [reflexivity | ]. exists (S k).
        apply Ascii.eqb_eq in C. subst c. simpl. rewrite <- IHk. reflexivity.
      * split; [simpl; exact C | ]. exists k.
        simpl. rewrite <- IHk. reflexivity.
    + split; [exact IHe | ]. exists k.
      change (String c (String a t) ++ slashes k)
        with (String c (String a t ++ slashes k)).
      rewrite <- IHk. reflexivity.
Qed.

(** X9. The base URL of a client never ends in a slash: [__init__] keeps
    the URL it is given up to its trailing slashes, all of which it drops
    (a URL made of slashes only becomes empty). *)
Theorem init_base_url_has_no_trailing_slash
  (default_headers : list (string * string)) (url : string)
  (key token : option string) (t r : Z) (v : bool) :
  ends_with "/"
    (base_url (__init__ default_headers url key token t r v)) = false /\
  exists k,
    url = base_url (__init__ default_headers url key token t r v)
          ++ slashes k.
Proof. apply rstrip_slash_spec. Qed.

(** X10. The session of a new client: [Content-Type] is
    [application/json] and [User-Agent] names the SDK, whatever the
    defaults of [requests] were and however they were capitalised; a
    non-empty API key is set as [X-API-Key], while no key or an empty key
    sets nothing; every other default header is kept.  The client starts
    with the access token it was given and without a refresh token. *)
Theorem init_session_headers (default_headers : list (string * string))
  (url : string) (key token : option string) (t r : Z) (v : bool) :
  let c := __init__ default_headers url key token t r v in
  hdr_get "Content-Type" (headers (session c)) = Some "application/json" /\
  hdr_get "User-Agent" (headers (session c))
  = Some "ContractManagementSDK-Python/1.0.0" /\
  hdr_get "X-API-Key" (headers (session c))
  = match key with
    | Some k => if (k =? "")%string
                then hdr_get "X-API-Key" default_headers else Some k
    | None => hdr_get "X-API-Key" default_headers
    end /\
  (forall name,
      lower name <> "content-type" -> lower name <> "user-agent" ->
      lower name <> "x-api-key" ->
      hdr_get name (headers (session c)) = hdr_get name default_headers) /\
  access_token c = of_optional token /\
  refresh_token c = PNone.
Proof.
  intros c. subst c. unfold __init__. cbn [session headers access_token refresh_token].
  unfold hdr_update. cbn [fold_left fst snd].
  set (h2 := hdr_set "User-Agent" _ (hdr_set "Content-Type" _ default_headers)).
  assert (Hct : hdr_get "Content-Type" h2 = Some "application/json").
  { subst h2. rewrite hdr_get_set_other by reflexivity.
    apply hdr_get_set_same. }
  assert (Hua : hdr_get "User-Agent" h2
                = Some "ContractManagementSDK-Python/1.0.0").
  { subst h2. apply hdr_get_set_same. }
  assert (Hk : hdr_get "X-API-Key" h2 = hdr_get "X-API-Key" default_headers).
  { subst h2. rewrite !hdr_get_set_other by reflexivity. reflexivity. }
  assert (Ho : forall name,
             lower name <> "content-type" -> lower name <> "user-agent" ->
             hdr_get name h2 = hdr_get name default_headers).
  { intros name N1 N2. subst h2.
    rewrite !hdr_get_set_other; [reflexivity | | ];
      apply String.eqb_neq; assumption. }
  destruct key as [k | ]; cbn [truthy].
  - destruct (k =? "")%string; cbn [negb].
    + repeat split; try assumption.
      intros name N1 N2 _. apply Ho; assumption.
    + rewrite !hdr_get_set_other by reflexivity.
      rewrite hdr_get_set_same.
      repeat split; try assumption.
      intros name N1 N2 N3.
      rewrite hdr_get_set_other by (apply String.eqb_neq; exact N3).
      apply Ho; assumption.
  - repeat split; try assumption.
    intros name N1 N2 _. apply Ho; assumption.
Qed.

(** A client built without a key on the defaults of [requests]: no
    [X-API-Key], and the [Accept] header of the defaults is still there. *)
Lemma init_session_headers_witness :
  let c := Scenario.client None (Some "T1") in
  hdr_get "X-API-Key" (headers (session c)) = None /\
  hdr_get "Accept" (headers (session c)) = Some "*/*".
Proof.
  destruct (init_session_headers Scenario.requests_default_headers
              "https://api.example.com/" None (Some "T1") 30 3 true)
    as (_ & _ & Hk & Ho & _).
  split.
  - exact Hk.
  - apply (Ho "Accept"); vm_compute; discriminate.
Defined.

(** ** Uploads *)

Lemma str_app_assoc (a b c : string) : (a ++ b) ++ c = a ++ b ++ c.
Proof. induction a as [ | x a IH]; simpl; [ | rewrite IH]; reflexivity. Qed.

Lemma str_app_nil_r (a : string) : a ++ "" = a.
Proof. induction a as [ | x a IH]; simpl; [ | rewrite IH]; reflexivity. Qed.

Lemma mem_char_app (c : ascii) (a b : string) :
  mem_char c (a ++ b) = mem_char c a || mem_char c b.
Proof.
  induction a as [ | x a IH]; cbn [append mem_char]; [reflexivity | ].
  rewrite IH. apply orb_assoc.
Qed.

Lemma basename_from_no_slash (s pre : string) :
  mem_char "/" pre = false ->
  mem_char "/" (basename_from (pre ++ s) s) = false.
Proof.
  revert pre. induction s as [ | c s IH]; intros pre H; cbn [basename_from].
  - rewrite str_app_nil_r. exact H.
  - destruct (Ascii.eqb c "/") eqn:C.
    + exact (IH "" eq_refl).
    + replace (pre ++ String c s) with ((pre ++ String c "") ++ s)
        by (rewrite str_app_assoc; reflexivity).
      apply IH. rewrite mem_char_app, H. cbn [mem_char orb].
      rewrite Ascii.eqb_sym, C. reflexivity.
Qed.

Lemma basename_from_suffix (s pre front : string) :
  exists dir,
    front ++ pre ++ s = dir ++ basename_from (pre ++ s) s.
Proof.
  revert pre front. induction s as [ | c s IH]; intros pre front;
    cbn [basename_from].
  - exists front. reflexivity.
  - destruct (Ascii.eqb c "/").
    + destruct (IH "" (front ++ pre ++ String c "")) as [dir E].
      exists dir. cbn [append] in E. rewrite <- E.
      rewrite !str_app_assoc. reflexivity.
    + destruct (IH (pre ++ String c "") front) as [dir E].
      exists dir. rewrite str_app_assoc in E. exact E.
Qed.

(** X11. An upload of a file that exists sends one multipart request and
    no JSON body: the first call is a POST to the attachments of the
    contract whose only part, [file], holds the content of the file under
    the name the caller gave or, when the caller gave none or an empty
    one, under the last component of the path, which has no slash in
    it. *)
Theorem upload_sends_the_file (transport : Transport) (fs : FileSystem)
  (depth : nat) (contract_id file_path : string) (filename : option string)
  (content : string) (w : World) :
  fs file_path = Some content ->
  let name := match filename with
              | Some n => if (n =? "")%string then basename file_path else n
              | None => basename file_path
              end in
  exists call rest,
    new_calls w
      (snd (upload_attachment transport fs (S depth) contract_id file_path
              filename w)) = call :: rest /\
    sent_method call = "POST" /\
    sent_url call
    = urljoin (base_url (self w))
              ("/contracts/" ++ contract_id ++ "/attachments") /\
    kw_files (sent_kwargs call) = Some [("file", mkFilePart name content)] /\
    body call = None /\
    mem_char "/" (basename file_path) = false /\
    exists dir, file_path = dir ++ basename file_path.
Proof.
  intros H name. unfold upload_attachment. rewrite H.
  destruct (make_request_starts transport depth "POST"
              ("/contracts/" ++ contract_id ++ "/attachments") None None
              (Some [("file", mkFilePart name content)]) false w)
    as [rest Hlog].
  assert (N : (if truthy (of_optional filename)
               then match filename with
                    | Some n => n
                    | None => basename file_path
                    end
               else basename file_path) = name).
  { subst name. destruct filename as [n | ]; [ | reflexivity].
    cbn [of_optional truthy]. destruct (n =? "")%string; reflexivity. }
  cbv zeta. rewrite N.
  eexists; exists rest. split; [apply new_calls_app; exact Hlog | ].
  repeat split.
  - exact (basename_from_no_slash file_path "" eq_refl).
  - exact (basename_from_suffix file_path "" "").
Qed.

Lemma upload_sends_the_file_witness :
  let fs := fun p => if (p =? "/tmp/scan/nda.pdf")%string
                     then Some "%PDF-1.7" else None in
  let w := Scenario.start (Scenario.logged_in "T1" "R1") in
  map (fun s => kw_files (sent_kwargs s))
    (new_calls w
       (snd (upload_attachment Scenario.accepting fs 3 "c-17"
               "/tmp/scan/nda.pdf" (Some "") w)))
  = [Some [("file", mkFilePart "nda.pdf" "%PDF-1.7")]].
Proof.
  intros fs w.
  destruct (upload_sends_the_file Scenario.accepting fs 2 "c-17"
              "/tmp/scan/nda.pdf" (Some "") "%PDF-1.7" w eq_refl)
    as (call & rest & E & _ & _ & F & _).
  rewrite E. cbn [map]. rewrite F.
  vm_compute in E. injection E as _ <-. reflexivity.
Defined.

(** ** The file name of a download *)

Lemma unquoted_run_no_quote (s : string) :
  mem_char dquote (unquoted_run s) = false.
Proof.
  induction s as [ | c s IH]; cbn [unquoted_run]; [reflexivity | ].
  destruct (Ascii.eqb c dquote) eqn:C; [reflexivity | ].
  cbn [mem_char]. rewrite Ascii.eqb_sym, C. exact IH.
Qed.

Lemma unquoted_run_until_quote (name rest : string) :
  mem_char dquote name = false ->
  unquoted_run (name ++ String dquote rest) = name.
Proof.
  induction name as [ | c name IH]; cbn [append unquoted_run mem_char]; intros H.
  - rewrite Ascii.eqb_refl. reflexivity.
  - apply orb_false_elim in H. destruct H as [H1 H2].
    rewrite Ascii.eqb_sym, H1, (IH H2). reflexivity.
Qed.

Lemma unquoted_run_whole (name : string) :
  mem_char dquote name = false -> unquoted_run name = name.
Proof.
  induction name as [ | c name IH]; cbn [unquoted_run mem_char]; intros H.
  - reflexivity.
  - apply orb_false_elim in H. destruct H as [H1 H2].
    rewrite Ascii.eqb_sym, H1, (IH H2). reflexivity.
Qed.

Lemma match_filename_here_group (s g : string) :
  match_filename_here s = Some g -> g <> "" /\ mem_char dquote g = false.
Proof.
  unfold match_filename_here.
  destruct (strip_prefix "filename=" s) as [rest | ]; [ | discriminate].
  set (group := match rest with
                | EmptyString => _
                | String c rest' => _
                end).
  assert (Q : mem_char dquote group = false).
  { subst group. destruct rest as [ | c rest']; [reflexivity | ].
    destruct (Ascii.eqb c dquote); apply unquoted_run_no_quote. }
  destruct group as [ | a t]; [discriminate | ].
  intros E. injection E as <-. split; [discriminate | exact Q].
Qed.

Lemma search_filename_skips (pre s : string) :
  mem_char "f" pre = false ->
  search_filename (pre ++ s) = search_filename s.
Proof.
  induction pre as [ | c pre IH]; cbn [append mem_char]; intros H.
  - reflexivity.
  - apply orb_false_elim in H. destruct H as [H1 H2].
    cbn [search_filename]. unfold match_filename_here at 1.
    cbn [strip_prefix]. rewrite H1. exact (IH H2).
Qed.

Lemma search_filename_group (header group : string) :
  search_filename header = Some group ->
  group <> "" /\ mem_char dquote group = false.
Proof.
  induction header as [ | c header IH]; cbn [search_filename].
  - destruct (match_filename_here "") eqn:E; [ | discriminate].
    intros H. injection H as <-.
    exact (match_filename_here_group _ _ E).
  - destruct (match_filename_here (String c header)) eqn:E.
    + intros H. injection H as <-.
      exact (match_filename_here_group _ _ E).
    + apply IH.
Qed.

(** X12. The name [download_attachment] reads from a [Content-Disposition]
    header.  Whatever the header, a name found is never empty and has no
    double quote in it.  After a prefix without the letter [f] (such as
    [attachment; ]), a quoted [filename=] gives the text between the
    quotes, whatever follows; an unquoted one gives everything up to the
    end of the header, further parameters included; and a header without
    the letter [f] gives no name. *)
Theorem content_disposition_filename (pre name rest : string) :
  mem_char "f" pre = false ->
  name <> "" ->
  mem_char dquote name = false ->
  search_filename
    (pre ++ "filename=" ++ String dquote (name ++ String dquote rest))
  = Some name /\
  search_filename (pre ++ "filename=" ++ name) = Some name /\
  search_filename pre = None /\
  (forall header group,
      search_filename header = Some group ->
      group <> "" /\ mem_char dquote group = false).
Proof.
  intros P N Q. split; [ | split; [ | split]].
  - rewrite (search_filename_skips pre _ P).
    cbn [append search_filename]. unfold match_filename_here.
    cbn [strip_prefix Ascii.eqb Bool.eqb]. rewrite Ascii.eqb_refl.
    rewrite (unquoted_run_until_quote name rest Q).
    destruct name; [contradiction | reflexivity].
  - rewrite (search_filename_skips pre _ P).
    cbn [append search_filename]. unfold match_filename_here.
    cbn [strip_prefix Ascii.eqb Bool.eqb].
    destruct name as [ | c name]; [contradiction | ].
    cbn [mem_char] in Q. apply orb_false_elim in Q. destruct Q as [Q1 Q2].
    rewrite Ascii.eqb_sym, Q1.
    rewrite unquoted_run_whole
      by (cbn [mem_char]; rewrite Q1; exact Q2).
    reflexivity.
  - rewrite <- (str_app_nil_r pre), (search_filename_skips pre "" P).
    reflexivity.
  - exact search_filename_group.
Qed.

(** A download named in quotes, and one whose unquoted name swallows the
    parameter after it. *)
Lemma content_disposition_filename_witness :
  search_filename
    ("attachment; filename=" ++ String dquote ("nda.pdf" ++ String dquote "; size=3"))
  = Some "nda.pdf" /\
  search_filename "attachment; filename=nda.pdf; size=3"
  = Some "nda.pdf; size=3".
Proof.
  split.
  - exact (proj1 (content_disposition_filename "attachment; " "nda.pdf"
                    "; size=3" eq_refl ltac:(discriminate) eq_refl)).
  - exact (proj1 (proj2 (content_disposition_filename "attachment; "
                           "nda.pdf; size=3" "" eq_refl ltac:(discriminate)
                           eq_refl))).
Defined.

(** ** Downloads and exports *)

Lemma write_chunks_from (chunks : list string) (written : string) :
  fold_left (fun w c => w ++ c) chunks written
  = written ++ write_chunks chunks.
Proof.
  unfold write_chunks. revert written.
  induction chunks as [ | c chunks IH]; intros written; cbn [fold_left].
  - rewrite str_app_nil_r. reflexivity.
  - rewrite IH, (IH ("" ++ c)), str_app_assoc. reflexivity.
Qed.

Lemma write_chunks_cons (c : string) (chunks : list string) :
  write_chunks (c :: chunks) = c ++ write_chunks chunks.
Proof.
  unfold write_chunks at 1. cbn [fold_left]. apply write_chunks_from.
Qed.

(** Cutting loses nothing and keeps the order. *)
Lemma cut_written (n : nat) (s : string) :
  forall k, fst (cut n k s) ++ write_chunks (snd (cut n k s)) = s.
Proof.
  induction s as [ | c s IH]; intros k; cbn [cut].
  - reflexivity.
  - destruct k as [ | k'].
    + specialize (IH (Nat.pred n)).
      destruct (cut n (Nat.pred n) s) as [h t]. cbn [fst snd] in *.
      rewrite write_chunks_cons.
      change ("" ++ String c h ++ write_chunks t)
        with (String c (h ++ write_chunks t)).
      rewrite IH. reflexivity.
    + specialize (IH k').
      destruct (cut n k' s) as [h t]. cbn [fst snd] in *.
      change (String c h ++ write_chunks t)
        with (String c (h ++ write_chunks t)).
      rewrite IH. reflexivity.
Qed.


Lemma iter_content_written (r : Response) (n : nat) :
  write_chunks (iter_content r n) = text r.
Proof.
  unfold iter_content. destruct (text r) as [ | c body] eqn:E.
  - reflexivity.
  - pose proof (cut_written n (String c body) n) as H.
    destruct (cut n n (String c body)) as [h t]. cbn [fst snd] in H.
    rewrite write_chunks_cons. exact H.
Qed.


Lemma returns_bind {A B} (P : B -> Prop) (m : M A) (k : A -> M B) :
  (forall a, returns P (k a)) -> returns P (bind m k).
Proof.
  intros Hk w b. unfold bind. destruct (m w) as [[a | e] w1].
  - apply Hk.
  - discriminate.
Qed.

Lemma returns_try_except {A} (P : A -> Prop) (m : M A) (h : exn -> M A) :
  returns P m -> (forall e, returns P (h e)) -> returns P (try_except m h).
Proof.
  intros Hm Hh w a. unfold try_except.
  destruct (m w) as [[a' | e] w1] eqn:E.
  - intros H. apply (Hm w). rewrite E. exact H.
  - apply Hh.
Qed.

Lemma returns_request_handlers {A} (P : A -> Prop) (e : exn) :
  returns P (@request_handlers A e).
Proof.
  intros w a.
  destruct e as [cls m c st d | r | [msg | msg | msg] | k | | msg | ];
    try discriminate.
  cbn [request_handlers].
  destruct (handle_error_is_raise (A := A) r) as [e He].
  rewrite He. discriminate.
Qed.

(** With [stream] set, a request that returns, returns a response. *)
Lemma stream_request_returns_stream (transport : Transport) (depth : nat)
  method endpoint data params files :
  returns (fun a => exists r, a = Stream r)
    (_make_request transport depth method endpoint data params files true).
Proof.
  destruct depth as [ | depth]; [intros w a H; discriminate H | ].
  intros w a. rewrite make_request_unfold.
  refine (returns_try_except (fun a => exists r, a = Stream r) _ _ _ _ w a);
    [ | intros e; apply returns_request_handlers].
  apply returns_bind. intros response. unfold after_first_response.
  apply returns_bind. intros c. apply returns_bind. intros r.
  unfold finish_response. apply returns_bind. intros _.
  intros w' a' H. injection H as <-. exists r. reflexivity.
Qed.


Lemma save_stream_outcome (writable : string -> bool) (r : Response)
  (path : string) (disk : FileSystem) :
  save_stream writable (Stream r) path disk
  = if writable path
    then (inl path, write_file path (text r) disk)
    else (inr (OSError path), disk).
Proof.
  unfold save_stream. rewrite iter_content_written. reflexivity.
Qed.



(** X14. How an export ends, for a body that arrives whole and a file
    that, once open, takes every write.  The request is a streaming GET of
    the export of the contract with the format as its only query
    parameter ([pdf] when the caller names none).  It returns a path only
    when that request returned a response; the path is the one the caller
    gave or else [contract_<id>.<format>]; the file at that path then
    holds exactly the body of the response and no other file is touched.
    When the request raises or the file cannot be opened, the disk is
    untouched. *)
Theorem export_contract_outcome (transport : Transport) (depth : nat)
  (writable : string -> bool) (contract_id : string)
  (format output_path : option string) (disk : FileSystem) (w : World) :
  let fmt := match format with Some f => f | None => "pdf" end in
  let req := _make_request transport depth "GET"
               ("/contracts/" ++ contract_id ++ "/export")
               None (Some [("format", PStr fmt)]) None true w in
  let run := export_contract transport depth writable contract_id format
               output_path disk w in
  snd (fst run) = snd req /\
  match fst (fst run) with
  | inl path =>
      exists r,
        fst req = Return (Stream r) /\
        path = match output_path with
               | Some p => if (p =? "")%string
                           then "contract_" ++ contract_id ++ "." ++ fmt
                           else p
               | None => "contract_" ++ contract_id ++ "." ++ fmt
               end /\
        path <> "" /\
        writable path = true /\
        snd run path = Some (text r) /\
        (forall other, other <> path -> snd run other = disk other)
  | inr (Raised e) => fst req = Raise e /\ snd run = disk
  | inr (OSError path) => writable path = false /\ snd run = disk
  | inr AttributeError => False
  end.
Proof.
  intros fmt req run. subst run. unfold export_contract. fold fmt. fold req.
  pose proof (stream_request_returns_stream transport depth "GET"
                ("/contracts/" ++ contract_id ++ "/export") None
                (Some [("format", PStr fmt)]) None w) as RS.
  fold req in RS.
  destruct req as [[resp | e] w'] eqn:E; cbn [fst snd] in *;
    [ | split; [reflexivity | split; reflexivity]].
  destruct (RS resp eq_refl) as [r ->].
  set (path := match output_path with
               | Some p => if (p =? "")%string
                           then "contract_" ++ contract_id ++ "." ++ fmt
                           else p
               | None => "contract_" ++ contract_id ++ "." ++ fmt
               end).
  assert (NE : path <> "").
  { subst path. destruct output_path as [p | ].
    - destruct (p =? "")%string eqn:P; [discriminate | ].
      apply String.eqb_neq. exact P.
    - discriminate. }
  assert (G : match output_path with
              | Some p =>
                  if truthy (PStr p) then p
                  else "contract_" ++ contract_id ++ "." ++ fmt
              | None => "contract_" ++ contract_id ++ "." ++ fmt
              end = path).
  { subst path. destruct output_path as [p | ]; [ | reflexivity].
    cbn [truthy]. destruct (p =? "")%string; reflexivity. }
  cbv zeta. rewrite G. rewrite save_stream_outcome.
  destruct (writable path) eqn:W; cbn [fst snd].
  - split; [reflexivity | ]. exists r.
    split; [reflexivity | ]. split; [reflexivity | ].
    split; [exact NE | ]. split; [exact W | ].
    split; [unfold write_file; rewrite String.eqb_refl; reflexivity | ].
    intros other O. unfold write_file.
    apply String.eqb_neq in O. rewrite O. reflexivity.
  - split; [reflexivity | split; [exact W | reflexivity]].
Qed.

(** An export that names neither format nor path. *)
Lemma export_contract_outcome_witness :
  let run := export_contract Scenario.file_server 3
               Scenario.any_path_writable "c-17" None None
               Scenario.no_files
               (Scenario.start (Scenario.logged_in "T1" "R1")) in
  fst (fst run) = inl "contract_c-17.pdf" /\
  snd run "contract_c-17.pdf" = Some "%PDF-1.7".
Proof.
  intros run.
  pose proof (export_contract_outcome Scenario.file_server 3
                Scenario.any_path_writable "c-17" None None
                Scenario.no_files
                (Scenario.start (Scenario.logged_in "T1" "R1"))) as H.
  cbv zeta in H. fold run in H. destruct H as [_ H].
  assert (P : fst (fst run) = inl "contract_c-17.pdf")
    by (vm_compute; reflexivity).
  rewrite P in H. destruct H as (r & Er & _ & _ & _ & Hw & _).
  vm_compute in Er. injection Er as <-.
  split; [exact P | exact Hw].
Defined.

(** ** What the wrappers always send *)

Lemma sent_under_cons (k k' : string) (v : pyval)
  (d : list (string * pyval)) :
  sent_under k ((k', v) :: d)
  = ((if (k' =? k)%string then encoded_values v else []) ++ sent_under k d)%list.
Proof.
  unfold sent_under, query_items. cbn [flat_map fst snd].
  rewrite filter_app, map_app. f_equal.
  destruct (k' =? k)%string eqn:E;
    induction (encoded_values v) as [ | x l IH]; cbn [map filter fst];
    try reflexivity; rewrite E; cbn [map snd]; [f_equal | ]; exact IH.
Qed.

Lemma sent_under_set_other (k k' : string) (v : pyval)
  (d : list (string * pyval)) :
  (k' =? k)%string = false ->
  sent_under k (dict_set k' v d) = sent_under k d.
Proof.
  intros D. induction d as [ | [k2 v2] d IH]; cbn [dict_set].
  - rewrite sent_under_cons, D. reflexivity.
  - destruct (k' =? k2)%string eqn:E.
    + apply String.eqb_eq in E. subst k2.
      rewrite !sent_under_cons, D. reflexivity.
    + rewrite !sent_under_cons, IH. reflexivity.
Qed.

Lemma sent_under_set_if_truthy_other (k k' : string) (v : pyval)
  (d : list (string * pyval)) :
  (k' =? k)%string = false ->
  sent_under k (set_if_truthy k' v d) = sent_under k d.
Proof.
  intros D. unfold set_if_truthy.
  destruct (truthy v); [apply sent_under_set_other; exact D | reflexivity].
Qed.

Lemma sent_under_set_if_not_None_other (k k' : string) (v : pyval)
  (d : list (string * pyval)) :
  (k' =? k)%string = false ->
  sent_under k (set_if_not_None k' v d) = sent_under k d.
Proof.
  intros D. unfold set_if_not_None.
  destruct (is_not_None v); [apply sent_under_set_other; exact D | reflexivity].
Qed.

(** What the query string has under a key of the first dict of a
    builder. *)
Ltac sent_under_key :=
  repeat first
    [ rewrite sent_under_set_if_truthy_other by reflexivity
    | rewrite sent_under_set_if_not_None_other by reflexivity ];
  rewrite !sent_under_cons; cbn [String.eqb Ascii.eqb Bool.eqb app];
  rewrite ?app_nil_r; reflexivity.

(** X15. The list methods always paginate, short of [None].  The dict
    that [get_contracts] hands to [session.request] for query parameters
    always has [page], [limit], [sortBy] and [sortOrder], and the one of
    [get_templates] always has [page] and [limit]: each holds the value the
    caller passed, or the default 1, 20, [createdAt] or [desc] when the
    caller passed nothing, and the filters never displace them.  The query
    string then has, under each of these keys, what [requests] makes of
    that value: a number or a string is sent as it is, 0 and the empty
    string included, and [None] is left out, so a caller who passes
    [limit=None] sends no [limit] at all. *)
Theorem list_methods_always_paginate (transport : Transport) (depth : nat)
  (w : World)
  (status type search category is_public page limit sort_by sort_order
     : option pyval) :
  let contracts := get_contracts_params status type search page limit
                     sort_by sort_order in
  let templates := get_templates_params category is_public search page
                     limit in
  dict_get "page" contracts = Some (or_default (PInt 1) page) /\
  dict_get "limit" contracts = Some (or_default (PInt 20) limit) /\
  dict_get "sortBy" contracts = Some (or_default (PStr "createdAt") sort_by) /\
  dict_get "sortOrder" contracts
  = Some (or_default (PStr "desc") sort_order) /\
  dict_get "page" templates = Some (or_default (PInt 1) page) /\
  dict_get "limit" templates = Some (or_default (PInt 20) limit) /\
  sent_under "page" contracts = encoded_values (or_default (PInt 1) page) /\
  sent_under "limit" contracts = encoded_values (or_default (PInt 20) limit) /\
  sent_under "sortBy" contracts
  = encoded_values (or_default (PStr "createdAt") sort_by) /\
  sent_under "sortOrder" contracts
  = encoded_values (or_default (PStr "desc") sort_order) /\
  sent_under "page" templates = encoded_values (or_default (PInt 1) page) /\
  sent_under "limit" templates = encoded_values (or_default (PInt 20) limit) /\
  (forall z, encoded_values (PInt z) = [PInt z]) /\
  (forall t, encoded_values (PStr t) = [PStr t]) /\
  encoded_values PNone = [] /\
  (exists call rest,
      new_calls w
        (snd (get_contracts transport (S depth) status type search page limit
                sort_by sort_order w)) = call :: rest /\
      kw_params (sent_kwargs call) = Some contracts) /\
  (exists call rest,
      new_calls w
        (snd (get_templates transport (S depth) category is_public search
                page limit w)) = call :: rest /\
      kw_params (sent_kwargs call) = Some templates).
Proof.
  intros contracts templates. subst contracts templates.
  repeat match goal with
         | |- _ /\ _ => split
         end.
  all: try (unfold get_contracts; sends_what_it_builds).
  all: try (unfold get_templates; sends_what_it_builds).
  all: try (intros; reflexivity).
  all: unfold get_contracts_params, get_templates_params; cbv zeta.
  all: try (other_keys; reflexivity).
  all: sent_under_key.
Qed.

(** A caller who passes [limit=None] sends no [limit]; 0 is sent. *)
Example limit_none_is_not_sent :
  sent_under "limit"
    (get_contracts_params None None None None (Some PNone) None None) = [] /\
  dict_get "limit"
    (get_contracts_params None None None None (Some PNone) None None)
  = Some PNone /\
  sent_under "limit"
    (get_contracts_params None None None None (Some (PInt 0)) None None)
  = [PInt 0] /\
  query_items (get_contracts_params None None None None (Some PNone) None None)
  = [("page", PInt 1); ("sortBy", PStr "createdAt");
     ("sortOrder", PStr "desc")].
Proof. repeat split. Qed.


(** ** Resource ids in paths *)

(** Resource ids are spliced into the path as they are, with no
    escaping and no check: an id that contains a slash addresses another
    resource.  Reading the contract [<id>/versions] is reading the
    versions of [<id>], reading the contract [<id>/comments] is reading
    the comments of [<id>], and deleting the contract
    [<id>/comments/<c>] is deleting the comment [<c>] of [<id>]: the same
    calls, the same outcome, the same client object afterwards. *)
Lemma ids_are_spliced_verbatim (transport : Transport) (depth : nat)
  (contract_id comment_id : string) (w : World) :
  get_contract transport depth (contract_id ++ "/versions") w
  = get_contract_versions transport depth contract_id w /\
  get_contract transport depth (contract_id ++ "/comments") w
  = get_comments transport depth contract_id w /\
  delete_contract transport depth
    (contract_id ++ "/comments/" ++ comment_id) w
  = delete_comment transport depth contract_id comment_id w.
Proof.
  unfold get_contract, get_contract_versions, get_comments, delete_contract,
    delete_comment.
  repeat split.
Qed.
